(** * srv: operational endpoints and lifecycle of the HTTP server facade

    A shallow embedding of the Go package [srv] (handlers, options and the
    server facade) together with the properties of its health aggregation,
    info aggregation, route registration and start/stop lifecycle. *)

From stdpp Require Import base option list strings gmap fin_maps.

Local Open Scope string_scope.
Local Open Scope list_scope.
Local Open Scope nat_scope.

(** ** Dynamic values

    Go's [interface{}] as far as the package looks at it: the nil interface,
    or a value of some dynamic type.  The package only ever inspects string
    values (options); the other constructors stand for what checks return. *)
Inductive iface : Type :=
  | INil
  | IString (s : string)
  | IInt (z : Z)
  | IBool (b : bool).

(** ** Response model of the handlers *)

(** [HealthMetricResult]: the value a health check returns. *)
Module HealthMetricResult.
Record t : Type := mk {
  OK : bool;
  Status : string;
  Info : option (gmap string iface)
}.
End HealthMetricResult.

(** [HealthMetricHandler] is [func() HealthMetricResult]; checks are modelled
    as total thunks (a check that panics or never returns is outside the
    model). *)
Definition HealthMetricHandler : Type := unit → HealthMetricResult.t.

Module HealthMetric.
Record t : Type := mk {
  Name : string;
  GetValue : HealthMetricHandler
}.
End HealthMetric.

(** [HealthResponse]; [Metrics] is a Go map, [None] being the nil map. *)
Module HealthResponse.
Record t : Type := mk {
  Status : string;
  Metrics : option (gmap string HealthMetricResult.t)
}.
End HealthResponse.

Definition InfoMetricHandler : Type := unit → iface.

Module InfoMetric.
Record t : Type := mk {
  Name : string;
  GetValue : InfoMetricHandler
}.
End InfoMetric.

Module InfoResponseGC.
Record t : Type := mk {
  Enabled : bool;
  Runs : Z;
  NextRun : string;
  CPUUsage : string;
  Time : string
}.
End InfoResponseGC.

Module InfoResponse.
Record t : Type := mk {
  Goroutines : Z;
  Uptime : string;
  NumCPU : Z;
  MemUsed : string;
  GC : InfoResponseGC.t;
  Metrics : gmap string iface
}.
End InfoResponse.

Module RouteInfo.
Record t : Type := mk {
  Method : string;
  Path : string
}.
End RouteInfo.

(** What a handler hands to the JSON response helper. *)
Inductive Body : Type :=
  | BHealth (res : HealthResponse.t)
  | BInfo (resp : InfoResponse.t)
  | BRoutes (routes : list RouteInfo.t)
  | BMessage (msg : string)
  | BEmpty.

Record Response : Type := mkResponse {
  StatusCode : Z;
  Payload : Body
}.

(** How a call of a handler ends: it writes a response and returns, it
    panics, or it is still blocked when the observed schedule ends. *)
Inductive outcome : Type :=
  | Returned (resp : Response)
  | Panicked (ctx : string)
  | Blocked.

(** Modelled from the spec: the response helpers of the external package
    [jres], which are not part of the sources, by the status codes the
    endpoint table gives and the handler tests read back: [Send] writes the
    given code, [OK] is 200, [NotFound] 404, [MethodNotAllwed] 405 and
    [ServerError] 500. *)
Module jres.
Definition StatusOK : Z := 200.
Definition StatusNotFound : Z := 404.
Definition StatusMethodNotAllowed : Z := 405.
Definition StatusInternalServerError : Z := 500.

Definition Send (status : Z) (data : Body) : Response := mkResponse status data.
Definition OK (data : Body) : Response := Send StatusOK data.
Definition NotFound (msg : string) : Response := Send StatusNotFound (BMessage msg).
Definition MethodNotAllwed : Response := Send StatusMethodNotAllowed BEmpty.
Definition ServerError : Response := Send StatusInternalServerError BEmpty.
End jres.

(** ** HealthHandler

    The handler starts one goroutine per metric and joins them with a
    [sync.WaitGroup].  Every goroutine runs the same body in three steps:
    call the check and fill in the default status (local), clear [isOk] when
    the check failed (shared), store the result in [res.Metrics] and signal
    the wait group (shared).  A goroutine is modelled by the point it has
    reached, the scheduler by the list of goroutine indices it picks, one
    step per pick.  A step is atomic: what the Go runtime makes of two
    unsynchronised writes that overlap in time is outside the model. *)
Inductive task : Type :=
  | Spawned (metric : HealthMetric.t)
      (* go func(metric) started, nothing executed *)
  | Called (metric : HealthMetric.t) (data : HealthMetricResult.t)
      (* data := metric.GetValue() and the status defaulting are done *)
  | Flagged (metric : HealthMetric.t) (data : HealthMetricResult.t)
      (* if !data.OK { isOk = false } is done *)
  | Finished (metric : HealthMetric.t) (data : HealthMetricResult.t).
      (* res.Metrics[metric.Name] = data and wg.Done() are done *)

Record hstate : Type := mkHState {
  isOk : bool;
  resMetrics : gmap string HealthMetricResult.t;
  tasks : list task
}.

(** Lines 59-63: the default status strings. *)
Definition normalise (data : HealthMetricResult.t) : HealthMetricResult.t :=
  if HealthMetricResult.OK data && bool_decide (HealthMetricResult.Status data = "") then
    HealthMetricResult.mk (HealthMetricResult.OK data) "ok" (HealthMetricResult.Info data)
  else if negb (HealthMetricResult.OK data) && bool_decide (HealthMetricResult.Status data = "") then
    HealthMetricResult.mk (HealthMetricResult.OK data) "not ok" (HealthMetricResult.Info data)
  else data.

(** The state after the [for ... range *metrics] loop has spawned the
    goroutines: [isOk := true], [res.Metrics = map{}], one task per metric. *)
Definition spawn (metrics : list HealthMetric.t) : hstate :=
  mkHState true ∅ (Spawned <$> metrics).

(** One instruction of goroutine [i]. A pick of a goroutine that does not
    exist or has finished leaves the state as it is. *)
Definition step (i : nat) (s : hstate) : hstate :=
  match tasks s !! i with
  | Some (Spawned metric) =>
      mkHState (isOk s) (resMetrics s)
        (<[i := Called metric (normalise (HealthMetric.GetValue metric ()))]> (tasks s))
  | Some (Called metric data) =>
      mkHState (if negb (HealthMetricResult.OK data) then false else isOk s)
        (resMetrics s)
        (<[i := Flagged metric data]> (tasks s))
  | Some (Flagged metric data) =>
      mkHState (isOk s)
        (<[HealthMetric.Name metric := data]> (resMetrics s))
        (<[i := Finished metric data]> (tasks s))
  | Some (Finished _ _) | None => s
  end.

Definition run (sched : list nat) (s : hstate) : hstate :=
  foldl (λ s i, step i s) s sched.

Definition is_finished (t : task) : bool :=
  match t with Finished _ _ => true | _ => false end.

(** Lines 76-82: the response once [wg.Wait()] has returned. *)
Definition respond (ok : bool) (metrics : option (gmap string HealthMetricResult.t)) : Response :=
  if negb ok then
    jres.Send jres.StatusInternalServerError (BHealth (HealthResponse.mk "not ok" metrics))
  else
    jres.OK (BHealth (HealthResponse.mk "ok" metrics)).

(** [HealthHandler metrics] applied to a request. [metrics] is what the
    pointer refers to when the request is served ([None]: a nil pointer).
    The result is [Blocked] while [wg.Wait()] still blocks, that is when the
    schedule ends before every goroutine has called [wg.Done()]. *)
Definition HealthHandler (metrics : option (list HealthMetric.t)) (sched : list nat)
    : outcome :=
  match metrics with
  | None => Returned (respond true None)
  | Some ms =>
      let s := run sched (spawn ms) in
      if forallb is_finished (tasks s) then Returned (respond (isOk s) (Some (resMetrics s)))
      else Blocked
  end.


(** ** InfoHandler *)

(** The readings the handler takes from the Go runtime while serving one
    request, with the text the external formatters ([bytefmt.ByteSize],
    [time.Duration.String], [fmt.Sprintf]) make of them. [NumCPU] is read
    once, when the handler is built; [Uptime] counts from that moment. *)
Record Runtime : Type := mkRuntime {
  rtNumCPU : Z;
  rtSinceStart : string;
  rtNumGoroutine : Z;
  rtHeapAlloc : string;
  rtEnableGC : bool;
  rtNumGC : Z;
  rtNextGC : string;
  rtGCCPUFraction : string;
  rtPauseTotal : string
}.

(** Lines 140-142: [for _, m := range *metrics { resp.Metrics[m.Name] = m.GetValue() }].
    Besides the map, the loop is given the list of the checks it has called
    so far, in call order. *)
Definition info_body (acc : gmap string iface * list string) (m : InfoMetric.t)
    : gmap string iface * list string :=
  let v := InfoMetric.GetValue m () in
  (<[InfoMetric.Name m := v]> acc.1, acc.2 ++ [InfoMetric.Name m]).

Definition info_range (metrics : list InfoMetric.t) : gmap string iface * list string :=
  foldl info_body (∅, []) metrics.

Definition InfoHandler (metrics : option (list InfoMetric.t)) (rt : Runtime) : outcome :=
  let resp (m : gmap string iface) :=
    InfoResponse.mk (rtNumGoroutine rt) (rtSinceStart rt) (rtNumCPU rt) (rtHeapAlloc rt)
      (InfoResponseGC.mk (rtEnableGC rt) (rtNumGC rt) (rtNextGC rt)
         (rtGCCPUFraction rt) (rtPauseTotal rt))
      m in
  match metrics with
  | None => Panicked "runtime error: invalid memory address or nil pointer dereference"
  | Some ms => Returned (jres.OK (BInfo (resp (info_range ms).1)))
  end.

(** The checks [InfoHandler] calls while serving a request, in call order. *)
Definition InfoHandler_calls (metrics : option (list InfoMetric.t)) : list string :=
  match metrics with
  | None => []
  | Some ms => (info_range ms).2
  end.

(** [RouteHandler] sends what the pointer refers to. *)
Definition RouteHandler (routes : option (list RouteInfo.t)) : outcome :=
  match routes with
  | None => Returned (jres.OK BEmpty)
  | Some l => Returned (jres.OK (BRoutes l))
  end.

Definition NotFoundHandler : Response := jres.NotFound "".
Definition MethodNotAllowedHandler : Response := jres.MethodNotAllwed.
Definition PanicHandler : Response := jres.ServerError.

(** ** Strings *)
Module strings.
(** [len(s) >= len(suffix) && s[len(s)-len(suffix):] == suffix] *)
Definition HasSuffix (s suffix : string) : bool :=
  (String.length suffix <=? String.length s)%nat &&
  String.eqb
    (String.substring (String.length s - String.length suffix) (String.length suffix) s)
    suffix.

(** [if HasSuffix(s, suffix) { return s[:len(s)-len(suffix)] }; return s] *)
Definition TrimSuffix (s suffix : string) : string :=
  if HasSuffix s suffix
  then String.substring 0 (String.length s - String.length suffix) s
  else s.
End strings.

(** ** Options *)
Inductive optionName : Type := optionContextPath | optionAppEnv.

Module Option.
Record t : Type := mk {
  name : optionName;
  value : iface
}.
End Option.

Definition OptionContextPath (path : string) : Option.t :=
  Option.mk optionContextPath (IString path).

Definition OptionAppEnv (envName : string) : Option.t :=
  Option.mk optionAppEnv (IString envName).

(** [o.value == "dev"]: an interface value equals a string constant when its
    dynamic type is string and the strings are equal. *)
Definition iface_is (v : iface) (s : string) : bool :=
  match v with
  | IString s' => String.eqb s' s
  | _ => false
  end.

(** ** The router and middleware capabilities

    The handles the package builds close over pointers into the server
    struct: a handle is kept as the constructor call that made it, and the
    pointer is followed when a request is served, so a check or route added
    after the handle was registered is seen by it. *)
Inductive healthMetricsPtr : Type :=
  | nilHealthMetrics | addrReadinessMetrics | addrLivenessMetrics.
Inductive infoMetricsPtr : Type :=
  | nilInfoMetrics | addrInfoMetrics.
Inductive routesPtr : Type :=
  | nilRoutes | addrRoutes.

Module httprouter.
Inductive Handle : Type :=
  | HealthHandle (metrics : healthMetricsPtr)   (* HealthHandler(metrics) *)
  | InfoHandle (metrics : infoMetricsPtr)       (* InfoHandler(metrics) *)
  | RouteHandle (routes : routesPtr)            (* RouteHandler(routes) *)
  | FuncHandle (f : unit → outcome).            (* a handle of the caller *)

(** Modelled from the spec: the router of the external package
    [httprouter], which is not part of the sources and which the spec gives
    as a capability to register a handle for a method and a path and to look
    one up, with one fallback handler each for "not found" and "method not
    allowed" and one handler for panics.  [table] holds the registrations in
    the order they were made; what the router makes of path patterns and of
    registrations it rejects is left out. *)
Record Router : Type := mkRouter {
  HandleMethodNotAllowed : bool;
  MethodNotAllowed : option Response;
  NotFound : option Response;
  PanicHandler : option Response;
  table : list (string * string * Handle)
}.

Definition New : Router := mkRouter true None None None [].

(** [Router.Handle]: register [handle] for [method] and [path]. *)
Definition Handle_ (method path : string) (handle : Handle) (r : Router) : Router :=
  mkRouter (HandleMethodNotAllowed r) (MethodNotAllowed r) (NotFound r) (PanicHandler r)
    (table r ++ [(method, path, handle)]).

Definition matches (method path : string) (e : string * string * Handle) : bool :=
  String.eqb e.1.1 method && String.eqb e.1.2 path.

Definition Lookup (r : Router) (method path : string) : option Handle :=
  snd <$> find (matches method path) (table r).

(** Some method other than [method] is registered for [path]. *)
Definition allowed (r : Router) (method path : string) : bool :=
  existsb (λ e, negb (String.eqb e.1.1 method) && String.eqb e.1.2 path) (table r).
End httprouter.

(** Modelled from the spec: the middleware stack of the external package
    [negroni], kept as the list of its handlers. *)
Module negroni.
Inductive Handler : Type :=
  | Recovery
  | Logger
  | Static (dir : string)
  | Wrap.   (* the handler made of the server's router *)

Definition Negroni : Type := list Handler.
Definition Classic : Negroni := [Recovery; Logger; Static "public"].
Definition UseHandler (n : Negroni) : Negroni := n ++ [Wrap].
End negroni.

(** ** The server *)

(** [http.Server{Addr: addr, Handler: s.Negroni}]; the handler is the
    server's own middleware stack, so only the address is kept. *)
Record httpServer_t : Type := mkHttpServer { Addr : string }.

Module Server.
Record t : Type := mk {
  Router : httprouter.Router;
  Negroni : negroni.Negroni;
  contextPath : string;
  routes : list RouteInfo.t;
  httpServer : option httpServer_t;
  readinessMetrics : list HealthMetric.t;
  livenessMetrics : list HealthMetric.t;
  infoMetrics : list InfoMetric.t
}.
End Server.

Definition set_Router (f : httprouter.Router → httprouter.Router) (s : Server.t) : Server.t :=
  Server.mk (f (Server.Router s)) (Server.Negroni s) (Server.contextPath s) (Server.routes s)
    (Server.httpServer s) (Server.readinessMetrics s) (Server.livenessMetrics s)
    (Server.infoMetrics s).

Definition set_Negroni (n : negroni.Negroni) (s : Server.t) : Server.t :=
  Server.mk (Server.Router s) n (Server.contextPath s) (Server.routes s)
    (Server.httpServer s) (Server.readinessMetrics s) (Server.livenessMetrics s)
    (Server.infoMetrics s).

Definition set_contextPath (p : string) (s : Server.t) : Server.t :=
  Server.mk (Server.Router s) (Server.Negroni s) p (Server.routes s)
    (Server.httpServer s) (Server.readinessMetrics s) (Server.livenessMetrics s)
    (Server.infoMetrics s).

Definition set_routes (l : list RouteInfo.t) (s : Server.t) : Server.t :=
  Server.mk (Server.Router s) (Server.Negroni s) (Server.contextPath s) l
    (Server.httpServer s) (Server.readinessMetrics s) (Server.livenessMetrics s)
    (Server.infoMetrics s).

Definition set_httpServer (h : option httpServer_t) (s : Server.t) : Server.t :=
  Server.mk (Server.Router s) (Server.Negroni s) (Server.contextPath s) (Server.routes s)
    h (Server.readinessMetrics s) (Server.livenessMetrics s) (Server.infoMetrics s).

Definition set_PanicHandler (h : option Response) (r : httprouter.Router) : httprouter.Router :=
  httprouter.mkRouter (httprouter.HandleMethodNotAllowed r) (httprouter.MethodNotAllowed r)
    (httprouter.NotFound r) h (httprouter.table r).

Definition set_HandleMethodNotAllowed (b : bool) (r : httprouter.Router) : httprouter.Router :=
  httprouter.mkRouter b (httprouter.MethodNotAllowed r) (httprouter.NotFound r)
    (httprouter.PanicHandler r) (httprouter.table r).

Definition set_MethodNotAllowed (h : option Response) (r : httprouter.Router)
    : httprouter.Router :=
  httprouter.mkRouter (httprouter.HandleMethodNotAllowed r) h (httprouter.NotFound r)
    (httprouter.PanicHandler r) (httprouter.table r).

Definition set_NotFound (h : option Response) (r : httprouter.Router) : httprouter.Router :=
  httprouter.mkRouter (httprouter.HandleMethodNotAllowed r) (httprouter.MethodNotAllowed r)
    h (httprouter.PanicHandler r) (httprouter.table r).

(** [Handle] records the route and registers it with the router, both under
    the context path the server has at that moment. *)
Definition Handle (method path : string) (handle : httprouter.Handle) (s : Server.t) : Server.t :=
  let s1 :=
    set_routes (Server.routes s ++ [RouteInfo.mk method (Server.contextPath s +:+ path)]) s in
  set_Router (httprouter.Handle_ method (Server.contextPath s1 +:+ path) handle) s1.

Definition GET := Handle "GET".
Definition PATCH := Handle "PATCH".
Definition DELETE := Handle "DELETE".
Definition HEAD := Handle "HEAD".
Definition OPTIONS := Handle "OPTIONS".

(** Construction can panic: the type assertion [o.value.(string)] fails on a
    value that is not a string (the zero [Option]). *)
Inductive result (A : Type) : Type :=
  | Ok (a : A)
  | Panic (ctx : string).
Arguments Ok {A} a.
Arguments Panic {A} ctx.

Definition bind {A B : Type} (r : result A) (k : A → result B) : result B :=
  match r with
  | Ok a => k a
  | Panic ctx => Panic ctx
  end.

Notation "x ←! r ; k" := (bind r (λ x, k))
  (at level 20, r at level 100, k at level 200, only parsing).

(** The body of the loop over the options in [New]. *)
Definition apply_option (o : Option.t) (srv : Server.t) : result Server.t :=
  match Option.name o with
  | optionContextPath =>
      match Option.value o with
      | IString p => Ok (set_contextPath (strings.TrimSuffix p "/") srv)
      | _ => Panic "interface conversion: interface {} is not string"
      end
  | optionAppEnv =>
      if iface_is (Option.value o) "dev" || iface_is (Option.value o) "test" then
        let srv1 := GET "/_system/routes" (httprouter.RouteHandle addrRoutes) srv in
        Ok (set_Router (set_PanicHandler None) srv1)
      else Ok srv
  end.

Fixpoint apply_options (opts : list Option.t) (srv : Server.t) : result Server.t :=
  match opts with
  | [] => Ok srv
  | o :: opts' => srv' ←! apply_option o srv; apply_options opts' srv'
  end.

Definition New (opts : list Option.t) : result Server.t :=
  let srv := Server.mk httprouter.New negroni.Classic "" [] None [] [] [] in
  let srv := set_Router (set_HandleMethodNotAllowed true) srv in
  let srv := set_Router (set_MethodNotAllowed (Some MethodNotAllowedHandler)) srv in
  let srv := set_Router (set_NotFound (Some NotFoundHandler)) srv in
  let srv := set_Router (set_PanicHandler (Some PanicHandler)) srv in
  srv ←! apply_options opts srv;
  let srv := GET "/_system/readiness" (httprouter.HealthHandle addrReadinessMetrics) srv in
  let srv := GET "/_system/liveness" (httprouter.HealthHandle addrLivenessMetrics) srv in
  let srv := GET "/_system/info" (httprouter.InfoHandle addrInfoMetrics) srv in
  Ok srv.

Definition AddLivenessCheck (name : string) (handler : HealthMetricHandler) (s : Server.t)
    : Server.t :=
  Server.mk (Server.Router s) (Server.Negroni s) (Server.contextPath s) (Server.routes s)
    (Server.httpServer s) (Server.readinessMetrics s)
    (Server.livenessMetrics s ++ [HealthMetric.mk name handler]) (Server.infoMetrics s).

Definition AddReadinessCheck (name : string) (handler : HealthMetricHandler) (s : Server.t)
    : Server.t :=
  Server.mk (Server.Router s) (Server.Negroni s) (Server.contextPath s) (Server.routes s)
    (Server.httpServer s) (Server.readinessMetrics s ++ [HealthMetric.mk name handler])
    (Server.livenessMetrics s) (Server.infoMetrics s).

Definition AddInfoMetric (name : string) (handler : InfoMetricHandler) (s : Server.t)
    : Server.t :=
  Server.mk (Server.Router s) (Server.Negroni s) (Server.contextPath s) (Server.routes s)
    (Server.httpServer s) (Server.readinessMetrics s) (Server.livenessMetrics s)
    (Server.infoMetrics s ++ [InfoMetric.mk name handler]).

(** ** Serving a request through the router *)

(** What serving one request depends on besides the server: the order in
    which the scheduler runs the goroutines of a health handler, and the
    readings of the Go runtime. *)
Record Env : Type := mkEnv {
  sched : list nat;
  runtime : Runtime
}.

Definition deref_health (p : healthMetricsPtr) (s : Server.t) : option (list HealthMetric.t) :=
  match p with
  | nilHealthMetrics => None
  | addrReadinessMetrics => Some (Server.readinessMetrics s)
  | addrLivenessMetrics => Some (Server.livenessMetrics s)
  end.

Definition deref_info (p : infoMetricsPtr) (s : Server.t) : option (list InfoMetric.t) :=
  match p with
  | nilInfoMetrics => None
  | addrInfoMetrics => Some (Server.infoMetrics s)
  end.

Definition deref_routes (p : routesPtr) (s : Server.t) : option (list RouteInfo.t) :=
  match p with
  | nilRoutes => None
  | addrRoutes => Some (Server.routes s)
  end.

Definition call (h : httprouter.Handle) (s : Server.t) (env : Env) : outcome :=
  match h with
  | httprouter.HealthHandle p => HealthHandler (deref_health p s) (sched env)
  | httprouter.InfoHandle p => InfoHandler (deref_info p s) (runtime env)
  | httprouter.RouteHandle p => RouteHandler (deref_routes p s)
  | httprouter.FuncHandle f => f ()
  end.

(** Modelled from the spec: how the external router serves a request.  It
    runs the handle registered for the method and the path, behind the panic
    handler when one is set; without a handle it answers with the
    method-not-allowed or the not-found handler. *)
Definition ServeHTTP (s : Server.t) (method path : string) (env : Env) : outcome :=
  let r := Server.Router s in
  match httprouter.Lookup r method path with
  | Some h =>
      match call h s env with
      | Panicked ctx =>
          match httprouter.PanicHandler r with
          | Some resp => Returned resp
          | None => Panicked ctx
          end
      | o => o
      end
  | None =>
      if httprouter.HandleMethodNotAllowed r && httprouter.allowed r method path then
        Returned (default (jres.Send jres.StatusMethodNotAllowed BEmpty)
                    (httprouter.MethodNotAllowed r))
      else
        Returned (default (jres.Send jres.StatusNotFound BEmpty) (httprouter.NotFound r))
  end.

(** ** Lifecycle *)

Definition Second : Z := 1000000000.
Definition gracefulTermTimeout : Z := 30 * Second.

Inductive Signal : Type :=
  | SIGHUP | SIGINT | SIGQUIT | SIGTERM | SIGUSR1 | SIGUSR2.

Global Instance Signal_eq_dec : EqDecision Signal.
Proof. solve_decision. Defined.

Definition stopSignals : list Signal := [SIGHUP; SIGINT; SIGQUIT; SIGTERM].

(** Error values are compared by identity: the two package errors are
    values of their own, every other error is an [errorString]. *)
Inductive error : Type :=
  | ErrServerStopped
  | ErrServerAlreadyRunning
  | errorString (msg : string).

(** What [ListenAndServe] returns. *)
Inductive listenError : Type :=
  | ErrServerClosed
  | listenFailed (msg : string).

(** What the lifecycle calls do to the outside. *)
Inductive effect : Type :=
  | LogPrintln (line : string)
  | GoStartServer (addr : string)
  | SignalNotify (sigs : list Signal)
  | HttpShutdown (addr : string) (timeout : Z).

Record lifecycle (A : Type) : Type := mkLifecycle {
  after : Server.t;
  effects : list effect;
  ret : A
}.
Arguments mkLifecycle {A} after effects ret.
Arguments after {A} l.
Arguments effects {A} l.
Arguments ret {A} l.

(** [Shutdown]; [drain] is what [s.httpServer.Shutdown(ctx)] returns when it
    is called: [None] when the requests finished in time, the message of
    the error of [net/http] (the context's deadline, a failure to close the
    listener) otherwise. *)
Definition Shutdown (drain : option string) (s : Server.t) : lifecycle (option error) :=
  match Server.httpServer s with
  | None => mkLifecycle s [] (Some ErrServerStopped)
  | Some hs =>
      mkLifecycle (set_httpServer None s)
        [LogPrintln "Shutting down HTTP server..."; HttpShutdown (Addr hs) gracefulTermTimeout]
        (errorString <$> drain)
  end.

Definition IsRunning (s : Server.t) : bool :=
  match Server.httpServer s with
  | Some _ => true
  | None => false
  end.

(** [startServer] once [ListenAndServe] has returned [err]: the new state
    and what is sent on [errChan]. *)
Definition startServer (err : option listenError) (s : Server.t) : Server.t * option error :=
  match err with
  | Some (listenFailed msg) =>
      (set_httpServer None s,
       Some (errorString ("common/server: failed to start server: " +:+ msg)))
  | Some ErrServerClosed | None => (s, None)
  end.

(** What a blocked [Run] can witness, in the order it happens. *)
Inductive RunEvent : Type :=
  | Served (err : option listenError)
      (* ListenAndServe returned in the goroutine of startServer *)
  | Signalled (sig : Signal) (drain : option string)
      (* the process receives sig *)
  | ShutdownCalled (drain : option string).
      (* another goroutine calls Shutdown on this server *)

(** The [select] of [Run]: [None] as return value means still blocked. *)
Fixpoint Run_select (evs : list RunEvent) (effs : list effect) (s : Server.t)
    : lifecycle (option (option error)) :=
  match evs with
  | [] => mkLifecycle s effs None
  | Served err :: evs' =>
      match startServer err s with
      | (s', Some e) => mkLifecycle s' effs (Some (Some e))
      | (s', None) => Run_select evs' effs s'
      end
  | Signalled sig drain :: evs' =>
      if bool_decide (sig ∈ stopSignals) then
        let r := Shutdown drain s in
        mkLifecycle (after r) (effs ++ effects r) (Some (ret r))
      else Run_select evs' effs s
  | ShutdownCalled drain :: evs' =>
      let r := Shutdown drain s in
      Run_select evs' (effs ++ effects r) (after r)
  end.

(** [Run addr] with the events [evs] happening while it waits. *)
Definition Run (addr : string) (evs : list RunEvent) (s : Server.t)
    : lifecycle (option (option error)) :=
  match Server.httpServer s with
  | Some _ => mkLifecycle s [] (Some (Some ErrServerAlreadyRunning))
  | None =>
      let s1 := set_Negroni (negroni.UseHandler (Server.Negroni s)) s in
      let s2 := set_httpServer (Some (mkHttpServer addr)) s1 in
      Run_select evs [GoStartServer addr; SignalNotify stopSignals] s2
  end.

(** ** Specification vocabulary *)

Definition task_metric (t : task) : HealthMetric.t :=
  match t with
  | Spawned m | Called m _ | Flagged m _ | Finished m _ => m
  end.

Definition task_data (t : task) : option HealthMetricResult.t :=
  match t with
  | Spawned _ => None
  | Called _ d | Flagged _ d | Finished _ d => Some d
  end.

(** Whether a goroutine, as far as it has come, leaves [isOk] alone. *)
Definition flag_ok (t : task) : bool :=
  match t with
  | Flagged _ d | Finished _ d => HealthMetricResult.OK d
  | _ => true
  end.

(** The number of instructions a goroutine has executed. *)
Definition pc (t : task) : nat :=
  match t with
  | Spawned _ => 0
  | Called _ _ => 1
  | Flagged _ _ => 2
  | Finished _ _ => 3
  end.

(** The result of a check as a caller reads it. *)
Definition raw (m : HealthMetric.t) : HealthMetricResult.t := HealthMetric.GetValue m ().

(** [v] is the entry recorded for a check that returned [r]: the status is
    the default for [r]'s [OK] when [r] has none, and [r]'s own otherwise. *)
Definition recorded_as (r v : HealthMetricResult.t) : Prop :=
  HealthMetricResult.OK v = HealthMetricResult.OK r ∧
  HealthMetricResult.Info v = HealthMetricResult.Info r ∧
  (HealthMetricResult.OK r = true → HealthMetricResult.Status r = "" →
     HealthMetricResult.Status v = "ok") ∧
  (HealthMetricResult.OK r = false → HealthMetricResult.Status r = "" →
     HealthMetricResult.Status v = "not ok") ∧
  (HealthMetricResult.Status r ≠ "" →
     HealthMetricResult.Status v = HealthMetricResult.Status r).

(** What ties a state of the health handler to the metrics it was started
    on. *)
Record hinv (ms : list HealthMetric.t) (s : hstate) : Prop := mkHInv {
  hinv_metrics : task_metric <$> tasks s = ms;
  hinv_data :
    Forall (λ t, ∀ d, task_data t = Some d → d = normalise (raw (task_metric t))) (tasks s);
  hinv_isOk : isOk s = forallb flag_ok (tasks s);
  hinv_map : ∀ k,
    match resMetrics s !! k with
    | Some v => ∃ i m, tasks s !! i = Some (Finished m v) ∧ HealthMetric.Name m = k
    | None => ∀ i m d, tasks s !! i = Some (Finished m d) → HealthMetric.Name m ≠ k
    end
}.

(** An option that switches the development configuration on. *)
Definition enables_routes (o : Option.t) : bool :=
  match Option.name o with
  | optionAppEnv => iface_is (Option.value o) "dev" || iface_is (Option.value o) "test"
  | optionContextPath => false
  end.

(** The context path after one more option, and after a list of options
    read from the empty context path. *)
Definition option_contextPath (c : string) (o : Option.t) : string :=
  match Option.name o, Option.value o with
  | optionContextPath, IString p => strings.TrimSuffix p "/"
  | _, _ => c
  end.

Definition contextPath_of (opts : list Option.t) : string :=
  foldl option_contextPath "" opts.

(** The registration of the routes endpoint under the context path [c]. *)
Definition routes_entry (c : string) : string * string * httprouter.Handle :=
  ("GET", c +:+ "/_system/routes", httprouter.RouteHandle addrRoutes).

Definition routes_info (c : string) : RouteInfo.t :=
  RouteInfo.mk "GET" (c +:+ "/_system/routes").

(** ** Sample checks and servers *)

Definition check_cache : HealthMetric.t :=
  HealthMetric.mk "cache" (λ _, HealthMetricResult.mk true "" None).


Definition check_db : HealthMetric.t :=
  HealthMetric.mk "db" (λ _, HealthMetricResult.mk false "degraded" None).

Definition info_version1 : InfoMetric.t := InfoMetric.mk "version" (λ _, IString "1.0").
Definition info_build : InfoMetric.t := InfoMetric.mk "build" (λ _, IInt 7).
Definition info_version2 : InfoMetric.t := InfoMetric.mk "version" (λ _, IString "2.0").

Definition sample_runtime : Runtime :=
  mkRuntime 8 "1m30s" 12 "2.5M" true 3 "4M" "0.01%" "1.2ms".

Definition sample_env : Env := mkEnv [] sample_runtime.

(** ** Vocabulary of the further properties *)


(** The servers a caller can reach through the facade: constructed by [New]
    from [opts], then changed by the registration helpers, by added checks
    and by the lifecycle calls. *)
Inductive facade (opts : list Option.t) : Server.t → Prop :=
  | facade_New srv :
      New opts = Ok srv → facade opts srv
  | facade_Handle method path handle s :
      facade opts s → facade opts (Handle method path handle s)
  | facade_AddLivenessCheck name handler s :
      facade opts s → facade opts (AddLivenessCheck name handler s)
  | facade_AddReadinessCheck name handler s :
      facade opts s → facade opts (AddReadinessCheck name handler s)
  | facade_AddInfoMetric name handler s :
      facade opts s → facade opts (AddInfoMetric name handler s)
  | facade_Run addr evs s :
      facade opts s → facade opts (after (Run addr evs s))
  | facade_Shutdown drain s :
      facade opts s → facade opts (after (Shutdown drain s)).

(** The route a registration of the router stands for. *)
Definition entry_info (e : string * string * httprouter.Handle) : RouteInfo.t :=
  RouteInfo.mk e.1.1 e.1.2.

(** An event that neither ends a blocked [Run] nor stops the server: a
    signal outside [stopSignals], or [ListenAndServe] returning no failure. *)
Definition quiet (ev : RunEvent) : bool :=
  match ev with
  | Served (Some (listenFailed _)) => false
  | Served _ => true
  | Signalled sig _ => negb (bool_decide (sig ∈ stopSignals))
  | ShutdownCalled _ => false
  end.


Definition check_db_up : HealthMetric.t :=
  HealthMetric.mk "db" (λ _, HealthMetricResult.mk true "" None).

(** What every server reached through the facade keeps. *)
Record facade_inv (opts : list Option.t) (s : Server.t) : Prop := mkFacadeInv {
  finv_contextPath : Server.contextPath s = contextPath_of opts;
  finv_routes : entry_info <$> httprouter.table (Server.Router s) = Server.routes s;
  finv_PanicHandler :
    httprouter.PanicHandler (Server.Router s) =
      (if existsb enables_routes opts then None else Some PanicHandler);
  finv_NotFound : httprouter.NotFound (Server.Router s) = Some NotFoundHandler;
  finv_MethodNotAllowed :
    httprouter.MethodNotAllowed (Server.Router s) = Some MethodNotAllowedHandler;
  finv_HandleMethodNotAllowed : httprouter.HandleMethodNotAllowed (Server.Router s) = true;
  finv_readiness :
    httprouter.Lookup (Server.Router s) "GET" (contextPath_of opts +:+ "/_system/readiness") =
      Some (httprouter.HealthHandle addrReadinessMetrics);
  finv_liveness :
    httprouter.Lookup (Server.Router s) "GET" (contextPath_of opts +:+ "/_system/liveness") =
      Some (httprouter.HealthHandle addrLivenessMetrics);
  finv_info :
    httprouter.Lookup (Server.Router s) "GET" (contextPath_of opts +:+ "/_system/info") =
      Some (httprouter.InfoHandle addrInfoMetrics)
}.

(** ** Health aggregation: the interleaving invariant *)

Section forallb_insert.
Context {A : Type} (f : A → bool).

Lemma forallb_insert_true (l : list A) (i : nat) (x y : A) :
  l !! i = Some x → f x = true →
  forallb f (<[i := y]> l) = f y && forallb f l.
Proof.
  revert i. induction l as [|a l IH]; intros [|i] Hx Hfx; simplify_eq/=.
  - by rewrite Hfx.
  - rewrite (IH i); [|done..]. by destruct (f a), (f y).
Qed.

Lemma forallb_insert_same (l : list A) (i : nat) (x y : A) :
  l !! i = Some x → f y = f x →
  forallb f (<[i := y]> l) = forallb f l.
Proof.
  revert i. induction l as [|a l IH]; intros [|i] Hx Hfx; simplify_eq/=.
  - by rewrite Hfx.
  - by rewrite (IH i).
Qed.
End forallb_insert.

Lemma normalise_recorded (r : HealthMetricResult.t) : recorded_as r (normalise r).
Proof.
  destruct r as [ok st info]. unfold recorded_as, normalise; simpl.
  destruct ok; simpl; case_bool_decide; simpl; naive_solver.
Qed.

Lemma normalise_OK (r : HealthMetricResult.t) :
  HealthMetricResult.OK (normalise r) = HealthMetricResult.OK r.
Proof. apply normalise_recorded. Qed.

Lemma spawn_hinv (ms : list HealthMetric.t) : hinv ms (spawn ms).
Proof.
  split; simpl.
  - rewrite <- list_fmap_compose. by rewrite <- (list_fmap_id ms) at 2.
  - apply Forall_fmap, Forall_true. by intros m d [=].
  - induction ms; simpl; auto.
  - intros k. rewrite lookup_empty. intros i m d Hi.
    apply list_lookup_fmap_Some in Hi as (? & ? & ?). discriminate.
Qed.

(** A step that does not finish a goroutine leaves the set of finished
    goroutines as it was. *)
Lemma lookup_insert_finished (l : list task) (i j : nat) (t t' : task) m d :
  l !! i = Some t → is_finished t = false → is_finished t' = false →
  <[i := t']> l !! j = Some (Finished m d) ↔ l !! j = Some (Finished m d).
Proof.
  intros Hi Ht Ht'. destruct (decide (i = j)) as [->|Hne].
  - rewrite list_lookup_insert_eq; [|by eapply lookup_lt_Some].
    split; intros H; simplify_eq; simpl in *; discriminate.
  - by rewrite list_lookup_insert_ne.
Qed.

Lemma step_hinv (ms : list HealthMetric.t) (i : nat) (s : hstate) :
  hinv ms s → hinv ms (step i s).
Proof.
  intros [Hms Hdata Hok Hmap]. unfold step.
  destruct (tasks s !! i) as [t|] eqn:Hi; [|by split].
  assert (Hdt : ∀ d, task_data t = Some d → d = normalise (raw (task_metric t))).
  { by eapply (Forall_lookup_1 _ _ _ _ Hdata). }
  destruct t as [m|m d|m d|m d]; [| | |by split]; split; simpl.
  - rewrite list_fmap_insert. simpl. rewrite list_insert_id; [done|].
    by rewrite list_lookup_fmap, Hi.
  - apply Forall_insert; [done|]. by intros d [= <-].
  - by rewrite (forallb_insert_same flag_ok _ _ _ _ Hi).
  - intros k. specialize (Hmap k). destruct (resMetrics s !! k).
    + destruct Hmap as (j & m' & Hj & Hk). exists j, m'. split; [|done].
      by apply (lookup_insert_finished _ _ _ _ _ _ _ Hi).
    + intros j m' d' Hj. apply (Hmap j m' d').
      by apply (lookup_insert_finished _ _ _ _ _ _ _ Hi) in Hj.
  - rewrite list_fmap_insert. simpl. rewrite list_insert_id; [done|].
    by rewrite list_lookup_fmap, Hi.
  - apply Forall_insert; [done|]. simpl. intros d' [= <-]. by apply Hdt.
  - rewrite (forallb_insert_true flag_ok _ _ _ _ Hi); [|done]. simpl.
    rewrite Hok. by destruct (HealthMetricResult.OK d).
  - intros k. specialize (Hmap k). destruct (resMetrics s !! k).
    + destruct Hmap as (j & m' & Hj & Hk). exists j, m'. split; [|done].
      by apply (lookup_insert_finished _ _ _ _ _ _ _ Hi).
    + intros j m' d' Hj. apply (Hmap j m' d').
      by apply (lookup_insert_finished _ _ _ _ _ _ _ Hi) in Hj.
  - rewrite list_fmap_insert. simpl. rewrite list_insert_id; [done|].
    by rewrite list_lookup_fmap, Hi.
  - apply Forall_insert; [done|]. simpl. intros d' [= <-]. by apply Hdt.
  - by rewrite (forallb_insert_same flag_ok _ _ _ _ Hi).
  - intros k. specialize (Hmap k).
    assert (Hlt : i < length (tasks s)) by by eapply lookup_lt_Some.
    destruct (decide (HealthMetric.Name m = k)) as [<-|Hne].
    + rewrite lookup_insert_eq. exists i, m. split; [|done].
      by rewrite list_lookup_insert_eq.
    + rewrite lookup_insert_ne; [|done]. destruct (resMetrics s !! k).
      * destruct Hmap as (j & m' & Hj & Hk). exists j, m'. split; [|done].
        rewrite list_lookup_insert_ne; [done|]. intros ->. simplify_eq.
      * intros j m' d' Hj. destruct (decide (i = j)) as [->|Hij].
        -- rewrite list_lookup_insert_eq in Hj; [|done]. by simplify_eq.
        -- rewrite list_lookup_insert_ne in Hj; [|done]. by eapply Hmap.
Qed.

Lemma run_hinv (ms : list HealthMetric.t) (sched : list nat) (s : hstate) :
  hinv ms s → hinv ms (run sched s).
Proof.
  revert s. induction sched as [|i sched IH]; intros s Hs; [done|].
  simpl. by apply IH, step_hinv.
Qed.

(** ** Health aggregation: every schedule can be completed *)

Lemma pc_le (t : task) : pc t ≤ 3.
Proof. destruct t; simpl; lia. Qed.


Lemma step_lookup_ne (i j : nat) (s : hstate) :
  i ≠ j → tasks (step i s) !! j = tasks s !! j.
Proof.
  intros Hne. unfold step.
  destruct (tasks s !! i) as [[]|]; simpl; by rewrite ?list_lookup_insert_ne.
Qed.

Lemma step_pc (i : nat) (s : hstate) (t : task) :
  tasks s !! i = Some t →
  ∃ t', tasks (step i s) !! i = Some t' ∧ pc t' = pc t `min` 2 + 1.
Proof.
  intros Hi. assert (i < length (tasks s)) by by eapply lookup_lt_Some.
  unfold step. rewrite Hi.
  destruct t; simpl; rewrite ?list_lookup_insert_eq by done; eauto.
Qed.

Lemma step_pc_mono (i j : nat) (s : hstate) (t : task) :
  tasks s !! j = Some t →
  ∃ t', tasks (step i s) !! j = Some t' ∧ pc t ≤ pc t'.
Proof.
  intros Hj. destruct (decide (i = j)) as [->|Hne].
  - destruct (step_pc _ _ _ Hj) as (t' & Ht' & Hpc). exists t'. split; [done|].
    pose proof (pc_le t). lia.
  - exists t. by rewrite step_lookup_ne.
Qed.


Lemma run_app (a b : list nat) (s : hstate) : run (a ++ b) s = run b (run a s).
Proof. apply foldl_app. Qed.





(** ** Health aggregation: the response after the join *)









(** Without goroutines no pick of the scheduler changes anything. *)
Lemma run_no_tasks (sched : list nat) : run sched (spawn []) = spawn [].
Proof.
  induction sched as [|i sched IH]; [done|]. simpl.
  assert (step i (spawn []) = spawn []) as -> by done. exact IH.
Qed.

Lemma HealthHandler_empty_slice (sched : list nat) :
  HealthHandler (Some []) sched =
    Returned (mkResponse 200 (BHealth (HealthResponse.mk "ok" (Some ∅)))).
Proof. unfold HealthHandler. cbv zeta. by rewrite run_no_tasks. Qed.

(** C3. With no check registered the health endpoint starts no goroutine
    (under every schedule the state stays the one after an empty loop) and
    answers "ok" with an empty metrics mapping and HTTP status 200. *)
Theorem HealthHandler_no_checks (sched : list nat) :
  tasks (spawn []) = [] ∧
  run sched (spawn []) = spawn [] ∧
  HealthHandler (Some []) sched =
    Returned (mkResponse 200 (BHealth (HealthResponse.mk "ok" (Some ∅)))).
Proof.
  split; [done|]. split; [apply run_no_tasks|apply HealthHandler_empty_slice].
Qed.

(** ** Info aggregation *)

Lemma info_range_snoc (ms : list InfoMetric.t) (m : InfoMetric.t) :
  info_range (ms ++ [m]) = info_body (info_range ms) m.
Proof. unfold info_range. by rewrite foldl_app. Qed.

Lemma info_range_calls (ms : list InfoMetric.t) :
  (info_range ms).2 = InfoMetric.Name <$> ms.
Proof.
  induction ms as [|m ms IH] using rev_ind; [done|].
  rewrite info_range_snoc, fmap_app. simpl. by rewrite IH.
Qed.

(** Checks under other names leave the entry of a name as it is. *)
Lemma info_fold_other (post : list InfoMetric.t) (acc : gmap string iface * list string)
    (k : string) :
  (∀ m, m ∈ post → InfoMetric.Name m ≠ k) →
  (foldl info_body acc post).1 !! k = acc.1 !! k.
Proof.
  revert acc. induction post as [|m post IH]; intros acc Hk; [done|].
  simpl. rewrite IH.
  - simpl. apply lookup_insert_ne, Hk. by left.
  - intros m' Hm'. apply Hk. by right.
Qed.

(** C9. The info endpoint calls the registered checks one after the other
    in registration order and writes every result into the metrics mapping
    under the check's name: the mapping of a collection extended by one
    check is the mapping of the collection with that check's entry written
    over it, so of the checks of one name the last registered one gives the
    entry. *)
Theorem InfoHandler_sequential (ms : list InfoMetric.t) (rt : Runtime) :
  InfoHandler_calls (Some ms) = InfoMetric.Name <$> ms ∧
  ∃ resp,
    InfoHandler (Some ms) rt = Returned (mkResponse 200 (BInfo resp)) ∧
    InfoResponse.Metrics resp = (info_range ms).1 ∧
    (∀ m, (info_range (ms ++ [m])).1 =
            <[InfoMetric.Name m := InfoMetric.GetValue m ()]> (info_range ms).1) ∧
    (∀ pre m post, ms = pre ++ m :: post →
       (∀ m', m' ∈ post → InfoMetric.Name m' ≠ InfoMetric.Name m) →
       InfoResponse.Metrics resp !! InfoMetric.Name m = Some (InfoMetric.GetValue m ())) ∧
    (∀ k, (∀ m, m ∈ ms → InfoMetric.Name m ≠ k) →
       InfoResponse.Metrics resp !! k = None).
Proof.
  split; [apply info_range_calls|]. eexists. split; [reflexivity|]. simpl.
  split; [done|]. split; [|split].
  - intros m. by rewrite info_range_snoc.
  - intros pre m post -> Hpost. unfold info_range.
    rewrite foldl_app. simpl. rewrite info_fold_other by done.
    simpl. apply lookup_insert_eq.
  - intros k Hk. unfold info_range. by rewrite info_fold_other.
Qed.

Lemma InfoHandler_sequential_witness :
  ∃ resp,
    InfoHandler (Some [info_version1; info_build; info_version2]) sample_runtime =
      Returned (mkResponse 200 (BInfo resp)) ∧
    InfoResponse.Metrics resp !! "version" = Some (IString "2.0") ∧
    InfoResponse.Metrics resp !! "build" = Some (IInt 7) ∧
    InfoResponse.Metrics resp !! "uptime" = None.
Proof.
  destruct (InfoHandler_sequential [info_version1; info_build; info_version2] sample_runtime)
    as (_ & resp & Hr & _ & _ & Hlast & Hnone).
  exists resp. split; [exact Hr|]. split; [|split].
  - apply (Hlast [info_version1; info_build] info_version2 []); [reflexivity|].
    intros m' Hm'. by apply not_elem_of_nil in Hm'.
  - apply (Hlast [info_version1] info_build [info_version2]); [reflexivity|].
    intros m' ->%list_elem_of_singleton. discriminate.
  - apply Hnone. intros m Hm. repeat (apply elem_of_cons in Hm as [->|Hm]; [discriminate|]).
    by apply not_elem_of_nil in Hm.
Defined.

(** C10. [InfoHandler] needs a non-nil pointer: the handler built from a nil
    pointer panics when it is invoked, and the one built from any non-nil
    pointer, the server's own [&srv.infoMetrics] among them, returns;
    [HealthHandler] on a nil pointer skips the checks and answers "ok" with
    a nil metrics mapping. *)
Theorem InfoHandler_nil_pointer (rt : Runtime) (sched : list nat) :
  (∃ ctx, InfoHandler None rt = Panicked ctx) ∧
  (∀ s, call (httprouter.InfoHandle nilInfoMetrics) s (mkEnv sched rt) =
          InfoHandler None rt) ∧
  (∀ ms, ∃ resp, InfoHandler (Some ms) rt = Returned resp) ∧
  (∀ s, ∃ resp, call (httprouter.InfoHandle addrInfoMetrics) s (mkEnv sched rt) =
                  Returned resp) ∧
  HealthHandler None sched =
    Returned (mkResponse 200 (BHealth (HealthResponse.mk "ok" None))) ∧
  (∀ s, call (httprouter.HealthHandle nilHealthMetrics) s (mkEnv sched rt) =
          Returned (mkResponse 200 (BHealth (HealthResponse.mk "ok" None)))).
Proof. repeat split; intros; try done; by eexists. Qed.

(** ** Lifecycle *)

(** C4. [Run] on a running server returns [ErrServerAlreadyRunning]; the
    server, its listener included, is left as it was, and nothing is
    started. *)
Theorem Run_already_running (s : Server.t) (addr : string) (evs : list RunEvent) :
  IsRunning s = true →
  Run addr evs s = mkLifecycle s [] (Some (Some ErrServerAlreadyRunning)).
Proof.
  unfold IsRunning, Run. by destruct (Server.httpServer s).
Qed.

Lemma Run_already_running_witness :
  ∃ s0, New [] = Ok s0 ∧
    let s := after (Run ":9876" [] s0) in
    Server.httpServer s = Some (mkHttpServer ":9876") ∧
    Run ":8080" [Signalled SIGTERM None] s = mkLifecycle s [] (Some (Some ErrServerAlreadyRunning)).
Proof.
  eexists. split; [reflexivity|]. split; [reflexivity|].
  apply Run_already_running. reflexivity.
Defined.

Lemma Shutdown_after (s : Server.t) (drain : option string) :
  Server.httpServer (after (Shutdown drain s)) = None.
Proof. unfold Shutdown. by destruct (Server.httpServer s) eqn:H. Qed.

(** C5. [Shutdown] on a stopped server returns [ErrServerStopped], leaves
    the server as it is and drains nothing; this is what a second
    [Shutdown] meets after a first one has completed. *)
Theorem Shutdown_not_running (s : Server.t) (drain drain' : option string) :
  (IsRunning s = false →
     Shutdown drain s = mkLifecycle s [] (Some ErrServerStopped)) ∧
  (let s' := after (Shutdown drain s) in
   Shutdown drain' s' = mkLifecycle s' [] (Some ErrServerStopped)).
Proof.
  assert (H : ∀ s d, Server.httpServer s = None →
            Shutdown d s = mkLifecycle s [] (Some ErrServerStopped)).
  { intros s0 d H0. unfold Shutdown. by rewrite H0. }
  split.
  - unfold IsRunning. intros Hs. apply H. by destruct (Server.httpServer s).
  - apply H, Shutdown_after.
Qed.

Lemma Shutdown_not_running_witness :
  ∃ s0, New [] = Ok s0 ∧ IsRunning s0 = false ∧
    Shutdown None s0 = mkLifecycle s0 [] (Some ErrServerStopped) ∧
    let s := after (Run ":9876" [] s0) in
    let s' := after (Shutdown (Some "context deadline exceeded") s) in
    IsRunning s = true ∧
    Shutdown None s' = mkLifecycle s' [] (Some ErrServerStopped).
Proof.
  eexists. split; [reflexivity|]. split; [reflexivity|]. split.
  - apply (Shutdown_not_running _ None None). reflexivity.
  - split; [reflexivity|]. apply Shutdown_not_running.
Defined.

Lemma Run_select_not_already_running (evs : list RunEvent) (effs : list effect)
    (s : Server.t) :
  ret (Run_select evs effs s) ≠ Some (Some ErrServerAlreadyRunning).
Proof.
  revert effs s. induction evs as [|ev evs IH]; intros effs s; [done|].
  destruct ev as [err|sig drain|drain]; simpl.
  - destruct err as [[|msg]|]; simpl; [apply IH|done|apply IH].
  - case_bool_decide; [|apply IH]. simpl. unfold Shutdown.
    destruct (Server.httpServer s); simpl; [by destruct drain|done].
  - apply IH.
Qed.

(** C6. A [Shutdown] of a running server leaves the server stopped whatever
    the drain returned, a drain error included, which is handed to the
    caller: [IsRunning] is false afterwards, and a later [Run] passes the
    guard (it listens, and whatever it returns is not
    [ErrServerAlreadyRunning]). *)
Theorem Shutdown_stops (s : Server.t) (drain : option string) :
  IsRunning s = true →
  let r := Shutdown drain s in
  ret r = errorString <$> drain ∧
  Server.httpServer (after r) = None ∧
  IsRunning (after r) = false ∧
  ∀ addr,
    IsRunning (after (Run addr [] (after r))) = true ∧
    ∀ evs, ret (Run addr evs (after r)) ≠ Some (Some ErrServerAlreadyRunning).
Proof.
  intros Hs r. assert (Hr : Server.httpServer (after r) = None) by apply Shutdown_after.
  split; [|split; [done|split]].
  - subst r. unfold IsRunning in Hs. unfold Shutdown.
    by destruct (Server.httpServer s).
  - unfold IsRunning. by rewrite Hr.
  - intros addr. unfold Run. rewrite Hr. split; [done|].
    intros evs. apply Run_select_not_already_running.
Qed.

Lemma Shutdown_stops_witness :
  ∃ s0, New [] = Ok s0 ∧
    let s := after (Run ":9876" [] s0) in
    let r := Shutdown (Some "context deadline exceeded") s in
    IsRunning s = true ∧
    ret r = Some (errorString "context deadline exceeded") ∧
    IsRunning (after r) = false ∧
    ret (Run ":9876" [Signalled SIGINT None] (after r)) = Some None.
Proof.
  eexists. split; [reflexivity|]. split; [reflexivity|].
  match goal with
  | |- context [Shutdown ?d ?s] =>
      destruct (Shutdown_stops s d eq_refl) as (H1 & _ & H3 & _)
  end.
  split; [exact H1|]. split; [exact H3|]. reflexivity.
Defined.

(** ** Facts about strings *)

Lemma string_app_nil (b : string) : "" +:+ b = b.
Proof. reflexivity. Qed.

Lemma string_app_cons (x : Ascii.ascii) (a b : string) :
  String x a +:+ b = String x (a +:+ b).
Proof. reflexivity. Qed.

Lemma string_app_length (a b : string) :
  String.length (a +:+ b) = String.length a + String.length b.
Proof.
  induction a as [|c a IH]; [done|]. rewrite string_app_cons. simpl. by rewrite IH.
Qed.

Lemma string_app_assoc (a b c : string) : (a +:+ b) +:+ c = a +:+ (b +:+ c).
Proof. induction a as [|x a IH]; [done|]. by rewrite !string_app_cons, IH. Qed.

(** Two strings that end in tails of one length end in the same tail. *)
Lemma string_app_inj_r (a b x y : string) :
  String.length x = String.length y → a +:+ x = b +:+ y → x = y.
Proof.
  revert b. induction a as [|c a IH]; intros [|c' b] Hlen Heq;
    rewrite ?string_app_nil, ?string_app_cons in Heq.
  - done.
  - subst x. simpl in Hlen. rewrite string_app_length in Hlen. lia.
  - subst y. simpl in Hlen. rewrite string_app_length in Hlen. lia.
  - injection Heq as _ Heq. by eapply IH.
Qed.

Lemma substring_all (x : string) : String.substring 0 (String.length x) x = x.
Proof. induction x as [|c x IH]; simpl; [done|]. by rewrite IH. Qed.

Lemma substring_app_l (p x : string) :
  String.substring 0 (String.length p) (p +:+ x) = p.
Proof.
  induction p as [|c p IH]; [by destruct x|].
  rewrite string_app_cons. simpl. by rewrite IH.
Qed.

Lemma substring_app_r (p x : string) :
  String.substring (String.length p) (String.length x) (p +:+ x) = x.
Proof.
  induction p as [|c p IH]; [apply substring_all|]. by rewrite string_app_cons.
Qed.

Lemma HasSuffix_app (p x : string) : strings.HasSuffix (p +:+ x) x = true.
Proof.
  unfold strings.HasSuffix. rewrite string_app_length.
  replace (String.length p + String.length x - String.length x) with (String.length p) by lia.
  rewrite substring_app_r, String.eqb_refl, andb_true_r. apply Nat.leb_le. lia.
Qed.

(** [TrimSuffix] takes a suffix that is there away. *)
Lemma TrimSuffix_app (p x : string) : strings.TrimSuffix (p +:+ x) x = p.
Proof.
  unfold strings.TrimSuffix. rewrite HasSuffix_app, string_app_length.
  replace (String.length p + String.length x - String.length x) with (String.length p) by lia.
  apply substring_app_l.
Qed.

(** No built-in health or info path ends the way the routes path does. *)
Lemma builtin_not_routes (c c' : string) :
  c +:+ "/_system/readiness" ≠ c' +:+ "/_system/routes" ∧
  c +:+ "/_system/liveness" ≠ c' +:+ "/_system/routes" ∧
  c +:+ "/_system/info" ≠ c' +:+ "/_system/routes".
Proof.
  change "/_system/routes" with ("/_system/rout" +:+ "es").
  change "/_system/readiness" with ("/_system/readine" +:+ "ss").
  change "/_system/liveness" with ("/_system/livene" +:+ "ss").
  change "/_system/info" with ("/_system/in" +:+ "fo").
  rewrite <- !string_app_assoc.
  repeat split; intros H%string_app_inj_r; done.
Qed.

(** ** Construction *)

Lemma apply_option_spec (o : Option.t) (srv srv' : Server.t) :
  apply_option o srv = Ok srv' →
  (if enables_routes o then
     httprouter.table (Server.Router srv') =
       httprouter.table (Server.Router srv) ++ [routes_entry (Server.contextPath srv)] ∧
     Server.routes srv' = Server.routes srv ++ [routes_info (Server.contextPath srv)] ∧
     httprouter.PanicHandler (Server.Router srv') = None
   else
     Server.Router srv' = Server.Router srv ∧ Server.routes srv' = Server.routes srv) ∧
  Server.contextPath srv' = option_contextPath (Server.contextPath srv) o ∧
  httprouter.NotFound (Server.Router srv') = httprouter.NotFound (Server.Router srv) ∧
  httprouter.MethodNotAllowed (Server.Router srv') =
    httprouter.MethodNotAllowed (Server.Router srv) ∧
  httprouter.HandleMethodNotAllowed (Server.Router srv') =
    httprouter.HandleMethodNotAllowed (Server.Router srv).
Proof.
  unfold apply_option, enables_routes, option_contextPath. destruct (Option.name o).
  - destruct (Option.value o); intros [= <-]; done.
  - destruct (_ || _); intros [= <-]; done.
Qed.

(** What the loop over the options does: [cs] are the context paths under
    which it registers the routes endpoint, one per option that enables it,
    each the context path of the options read before that option. *)
Lemma apply_options_spec (opts : list Option.t) (srv srv' : Server.t) :
  apply_options opts srv = Ok srv' →
  ∃ cs,
    httprouter.table (Server.Router srv') =
      httprouter.table (Server.Router srv) ++ (routes_entry <$> cs) ∧
    Server.routes srv' = Server.routes srv ++ (routes_info <$> cs) ∧
    (existsb enables_routes opts = false → cs = []) ∧
    (∀ pre o post, opts = pre ++ o :: post → enables_routes o = true →
       foldl option_contextPath (Server.contextPath srv) pre ∈ cs) ∧
    Server.contextPath srv' = foldl option_contextPath (Server.contextPath srv) opts ∧
    httprouter.PanicHandler (Server.Router srv') =
      (if existsb enables_routes opts then None
       else httprouter.PanicHandler (Server.Router srv)) ∧
    httprouter.NotFound (Server.Router srv') = httprouter.NotFound (Server.Router srv) ∧
    httprouter.MethodNotAllowed (Server.Router srv') =
      httprouter.MethodNotAllowed (Server.Router srv) ∧
    httprouter.HandleMethodNotAllowed (Server.Router srv') =
      httprouter.HandleMethodNotAllowed (Server.Router srv).
Proof.
  revert srv. induction opts as [|o opts IH]; intros srv H; simpl in H.
  - injection H as <-. exists []. rewrite !app_nil_r.
    repeat split; try done. by intros [|? ?] ? ? ?.
  - destruct (apply_option o srv) as [srv1|] eqn:Ho; [|discriminate]. simpl in H.
    apply apply_option_spec in Ho as (Ho & Hc & Hnf & Hmna & Hh).
    destruct (IH _ H) as (cs & Ht & Hr & Hoff & Hin & Hc' & Hp & Hnf' & Hmna' & Hh').
    rewrite Hc in Hc', Hin.
    simpl. destruct (enables_routes o) eqn:Hen; simpl.
    + destruct Ho as (Ht1 & Hr1 & Hp1).
      exists (Server.contextPath srv :: cs). simpl.
      rewrite Ht, Ht1, Hr, Hr1, <- !app_assoc. simpl.
      repeat split; try done; try congruence.
      * intros [|o' pre] o1 post Heq Ho1; simplify_eq/=; [by left|].
        right. by eapply Hin.
      * rewrite Hp, Hp1. by destruct (existsb _ _).
    + destruct Ho as [Hrt Hr1]. exists cs. rewrite Hrt in *. rewrite Hr1 in *.
      repeat split; try done; try congruence.
      intros [|o' pre] o1 post Heq Ho1; simplify_eq/=; [congruence|].
      by eapply Hin.
Qed.

Lemma New_spec (opts : list Option.t) (srv : Server.t) :
  New opts = Ok srv →
  ∃ cs,
    httprouter.table (Server.Router srv) =
      (routes_entry <$> cs) ++
      [("GET", Server.contextPath srv +:+ "/_system/readiness",
        httprouter.HealthHandle addrReadinessMetrics);
       ("GET", Server.contextPath srv +:+ "/_system/liveness",
        httprouter.HealthHandle addrLivenessMetrics);
       ("GET", Server.contextPath srv +:+ "/_system/info",
        httprouter.InfoHandle addrInfoMetrics)] ∧
    Server.routes srv =
      (routes_info <$> cs) ++
      [RouteInfo.mk "GET" (Server.contextPath srv +:+ "/_system/readiness");
       RouteInfo.mk "GET" (Server.contextPath srv +:+ "/_system/liveness");
       RouteInfo.mk "GET" (Server.contextPath srv +:+ "/_system/info")] ∧
    (existsb enables_routes opts = false → cs = []) ∧
    (∀ pre o post, opts = pre ++ o :: post → enables_routes o = true →
       contextPath_of pre ∈ cs) ∧
    Server.contextPath srv = contextPath_of opts ∧
    httprouter.PanicHandler (Server.Router srv) =
      (if existsb enables_routes opts then None else Some PanicHandler) ∧
    httprouter.NotFound (Server.Router srv) = Some NotFoundHandler ∧
    httprouter.MethodNotAllowed (Server.Router srv) = Some MethodNotAllowedHandler ∧
    httprouter.HandleMethodNotAllowed (Server.Router srv) = true.
Proof.
  unfold New. cbv zeta.
  match goal with |- context [apply_options opts ?s] => set (srv0 := s) end.
  destruct (apply_options opts srv0) as [srv1|] eqn:Ho; [|discriminate]. simpl.
  intros [= <-].
  destruct (apply_options_spec _ _ _ Ho)
    as (cs & Ht & Hr & Hoff & Hin & Hc & Hp & Hnf & Hm & Hh).
  exists cs. simpl. rewrite Ht, Hr, Hp, Hnf, Hm, Hh. simpl.
  rewrite <- !app_assoc. done.
Qed.

Lemma iface_is_spec (v : iface) (s : string) : iface_is v s = true ↔ v = IString s.
Proof.
  destruct v; simpl; try (split; intros; discriminate).
  rewrite String.eqb_eq. split; [intros Hs; by rewrite Hs|intros Hs; by injection Hs].
Qed.

Lemma enables_routes_spec (o : Option.t) :
  enables_routes o = true ↔
  Option.name o = optionAppEnv ∧
  (Option.value o = IString "dev" ∨ Option.value o = IString "test").
Proof.
  unfold enables_routes. destruct (Option.name o).
  - split; [discriminate|]. by intros [? _].
  - rewrite orb_true_iff, !iface_is_spec. split; [by split|by intros [_ ?]].
Qed.

Lemma Lookup_routes_entry (cs : list string) (c : string)
    (rest : list (string * string * httprouter.Handle)) (r : httprouter.Router) :
  httprouter.table r = (routes_entry <$> cs) ++ rest → c ∈ cs →
  httprouter.Lookup r "GET" (c +:+ "/_system/routes") = Some (httprouter.RouteHandle addrRoutes).
Proof.
  unfold httprouter.Lookup. intros -> Hc.
  induction cs as [|c0 cs IH]; [by apply not_elem_of_nil in Hc|]. simpl.
  unfold httprouter.matches at 1. simpl.
  destruct (String.eqb_spec (c0 +:+ "/_system/routes") (c +:+ "/_system/routes")) as [_|Hne];
    [done|].
  apply IH. apply elem_of_cons in Hc as [->|Hc]; [done|exact Hc].
Qed.

(** C8. A server constructed with an appEnv option of value "dev" or "test"
    has the routes endpoint registered (GET /_system/routes, under the
    context path of the options before that option, is served by the routes
    handler and listed) and no panic handler; a server constructed without
    such an option, whatever other appEnv values it was given, has no route
    served by the routes handler, answers GET on every path ending in
    /_system/routes with the not-found response, HTTP status 404, and keeps
    the panic handler. *)
Theorem New_appEnv (opts : list Option.t) (srv : Server.t) :
  New opts = Ok srv →
  (∀ pre o post, opts = pre ++ o :: post → Option.name o = optionAppEnv →
     Option.value o = IString "dev" ∨ Option.value o = IString "test" →
     httprouter.Lookup (Server.Router srv) "GET" (contextPath_of pre +:+ "/_system/routes") =
       Some (httprouter.RouteHandle addrRoutes) ∧
     RouteInfo.mk "GET" (contextPath_of pre +:+ "/_system/routes") ∈ Server.routes srv ∧
     httprouter.PanicHandler (Server.Router srv) = None) ∧
  ((∀ o, o ∈ opts → Option.name o = optionAppEnv →
         Option.value o ≠ IString "dev" ∧ Option.value o ≠ IString "test") →
   (∀ method path h, httprouter.Lookup (Server.Router srv) method path = Some h →
                     h ≠ httprouter.RouteHandle addrRoutes) ∧
   (∀ c env, ServeHTTP srv "GET" (c +:+ "/_system/routes") env =
               Returned (mkResponse 404 (BMessage ""))) ∧
   httprouter.PanicHandler (Server.Router srv) = Some PanicHandler).
Proof.
  intros (cs & Ht & Hr & Hoff & Hin & Hc & Hp & Hnf & Hm & Hh)%New_spec. split.
  - intros pre o post -> Hname Hval.
    assert (Hen : enables_routes o = true) by by apply enables_routes_spec.
    assert (He : existsb enables_routes (pre ++ o :: post) = true).
    { apply existsb_exists. exists o. split; [|done]. apply in_app_iff. right. by left. }
    rewrite He in Hp. specialize (Hin pre o post eq_refl Hen). split; [|split; [|done]].
    + by eapply Lookup_routes_entry.
    + rewrite Hr. apply elem_of_app. left.
      by apply (list_elem_of_fmap_2 routes_info) in Hin.
  - intros Hnone.
    assert (He : existsb enables_routes opts = false).
    { apply not_true_is_false. intros (o & Ho & Hen)%existsb_exists.
      apply enables_routes_spec in Hen as [Hname Hval].
      destruct (Hnone o) as [Hd Ht']; [by apply list_elem_of_In|done|].
      by destruct Hval. }
    rewrite He in Hp. rewrite (Hoff He) in Ht. simpl in Ht.
    split; [|split; [|done]].
    + intros method path h. unfold httprouter.Lookup. rewrite Ht.
      intros (e & He' & ->)%fmap_Some. apply find_some in He' as [Hin' _].
      simpl in Hin'. intros Heq. destruct Hin' as [<-|[<-|[<-|[]]]]; discriminate.
    + intros c env. unfold ServeHTTP, httprouter.Lookup, httprouter.allowed.
      rewrite Ht, Hnf, Hh. simpl. unfold httprouter.matches. simpl.
      destruct (builtin_not_routes (Server.contextPath srv) c) as (H1 & H2 & H3).
      apply String.eqb_neq in H1, H2, H3. rewrite H1, H2, H3. done.
Qed.

Lemma New_appEnv_witness :
  (∃ srv, New [OptionAppEnv "dev"] = Ok srv ∧
     httprouter.Lookup (Server.Router srv) "GET" "/_system/routes" =
       Some (httprouter.RouteHandle addrRoutes) ∧
     RouteInfo.mk "GET" "/_system/routes" ∈ Server.routes srv ∧
     httprouter.PanicHandler (Server.Router srv) = None) ∧
  (∃ srv, New [OptionAppEnv "prod"] = Ok srv ∧
     ServeHTTP srv "GET" "/_system/routes" sample_env =
       Returned (mkResponse 404 (BMessage "")) ∧
     httprouter.PanicHandler (Server.Router srv) = Some PanicHandler).
Proof.
  split.
  - eexists. split; [reflexivity|].
    refine (proj1 (New_appEnv [OptionAppEnv "dev"] _ eq_refl)
              [] (OptionAppEnv "dev") [] eq_refl eq_refl _).
    left. reflexivity.
  - eexists. split; [reflexivity|].
    assert (Hprod : ∀ o, o ∈ [OptionAppEnv "prod"] → Option.name o = optionAppEnv →
              Option.value o ≠ IString "dev" ∧ Option.value o ≠ IString "test").
    { intros o Ho _. apply list_elem_of_singleton in Ho. rewrite Ho. split; discriminate. }
    destruct (proj2 (New_appEnv [OptionAppEnv "prod"] _ eq_refl) Hprod) as (_ & H404 & Hp).
    split; [exact (H404 "" sample_env)|exact Hp].
Defined.

(** The context path of the server is the one of all its options, while
    the routes endpoint is under the one of the options before the option
    that enables it. *)
Lemma New_contextPath (opts : list Option.t) (srv : Server.t) :
  New opts = Ok srv → Server.contextPath srv = contextPath_of opts.
Proof. by intros (cs & _ & _ & _ & _ & Hc & _)%New_spec. Qed.

(** ** Context path *)

(** A route registered through [Handle] is listed and registered under the
    context path the server has when [Handle] is called. *)
Lemma Handle_prefixed (method path : string) (handle : httprouter.Handle) (s : Server.t) :
  let s' := Handle method path handle s in
  Server.routes s' = Server.routes s ++ [RouteInfo.mk method (Server.contextPath s +:+ path)] ∧
  httprouter.table (Server.Router s') =
    httprouter.table (Server.Router s) ++ [(method, Server.contextPath s +:+ path, handle)] ∧
  Server.contextPath s' = Server.contextPath s.
Proof. done. Qed.

(** A context path given with a trailing slash is kept without it, and the
    three endpoints registered after the options are under it. *)
Lemma New_contextPath_trimmed (p : string) :
  ∃ srv, New [OptionContextPath (p +:+ "/")] = Ok srv ∧
    Server.contextPath srv = p ∧
    Server.routes srv =
      [RouteInfo.mk "GET" (p +:+ "/_system/readiness");
       RouteInfo.mk "GET" (p +:+ "/_system/liveness");
       RouteInfo.mk "GET" (p +:+ "/_system/info")].
Proof.
  eexists. split; [reflexivity|]. simpl. by rewrite TrimSuffix_app.
Qed.

(** With the context path given before the environment, the routes endpoint
    is under the context path like the others. *)
Lemma New_contextPath_first :
  ∃ srv, New [OptionContextPath "/api/"; OptionAppEnv "dev"] = Ok srv ∧
    RouteInfo.Path <$> Server.routes srv =
      ["/api/_system/routes"; "/api/_system/readiness"; "/api/_system/liveness";
       "/api/_system/info"].
Proof. eexists. split; reflexivity. Qed.

(** C7. The routes endpoint is registered while the options are read, under
    the context path read so far: with the environment option before the
    context path option the endpoint is listed and served at
    /_system/routes, outside the context path /api, under which a request
    for it is answered with the not-found response. *)
Theorem New_routes_outside_contextPath :
  ∃ srv, New [OptionAppEnv "dev"; OptionContextPath "/api/"] = Ok srv ∧
    Server.contextPath srv = "/api" ∧
    RouteInfo.Path <$> Server.routes srv =
      ["/_system/routes"; "/api/_system/readiness"; "/api/_system/liveness";
       "/api/_system/info"] ∧
    httprouter.Lookup (Server.Router srv) "GET" "/_system/routes" =
      Some (httprouter.RouteHandle addrRoutes) ∧
    httprouter.Lookup (Server.Router srv) "GET" "/api/_system/routes" = None ∧
    ∀ env, ServeHTTP srv "GET" "/api/_system/routes" env =
             Returned (mkResponse 404 (BMessage "")).
Proof. eexists. repeat split; reflexivity. Qed.

(** ** The endpoints of a constructed server *)

Lemma apply_option_fields (o : Option.t) (srv srv' : Server.t) :
  apply_option o srv = Ok srv' →
  Server.readinessMetrics srv' = Server.readinessMetrics srv ∧
  Server.livenessMetrics srv' = Server.livenessMetrics srv ∧
  Server.infoMetrics srv' = Server.infoMetrics srv ∧
  Server.httpServer srv' = Server.httpServer srv.
Proof.
  unfold apply_option. destruct (Option.name o).
  - destruct (Option.value o); intros [= <-]; done.
  - destruct (_ || _); intros [= <-]; done.
Qed.

Lemma apply_options_fields (opts : list Option.t) (srv srv' : Server.t) :
  apply_options opts srv = Ok srv' →
  Server.readinessMetrics srv' = Server.readinessMetrics srv ∧
  Server.livenessMetrics srv' = Server.livenessMetrics srv ∧
  Server.infoMetrics srv' = Server.infoMetrics srv ∧
  Server.httpServer srv' = Server.httpServer srv.
Proof.
  revert srv. induction opts as [|o opts IH]; intros srv H; simpl in H.
  - by injection H as <-.
  - destruct (apply_option o srv) as [srv1|] eqn:Ho; [|discriminate]. simpl in H.
    apply apply_option_fields in Ho as (H1 & H2 & H3 & H4).
    destruct (IH _ H) as (H1' & H2' & H3' & H4'). repeat split; congruence.
Qed.

(** A server as [New] returns it is stopped and has no checks. *)
Lemma New_fresh (opts : list Option.t) (srv : Server.t) :
  New opts = Ok srv →
  Server.readinessMetrics srv = [] ∧ Server.livenessMetrics srv = [] ∧
  Server.infoMetrics srv = [] ∧ IsRunning srv = false.
Proof.
  unfold New. cbv zeta.
  match goal with |- context [apply_options opts ?s] => set (srv0 := s) end.
  destruct (apply_options opts srv0) as [srv1|] eqn:Ho; [|discriminate]. simpl.
  intros [= <-]. apply apply_options_fields in Ho as (H1 & H2 & H3 & H4).
  unfold IsRunning. simpl. by rewrite H1, H2, H3, H4.
Qed.

(** The check added to a constructed server is seen by the readiness
    endpoint registered at construction: one check "db" that reports
    [{ok: false, status: "degraded"}] gives "not ok" and 500. *)
Example readiness_db_degraded :
  ∃ srv0, New [] = Ok srv0 ∧
    let srv := AddReadinessCheck "db" (HealthMetric.GetValue check_db) srv0 in
    ∃ metrics,
      ServeHTTP srv "GET" "/_system/readiness" (mkEnv [0; 0; 0] sample_runtime) =
        Returned (mkResponse 500 (BHealth (HealthResponse.mk "not ok" (Some metrics)))) ∧
      metrics !! "db" = Some (HealthMetricResult.mk false "degraded" None).
Proof.
  eexists. split; [reflexivity|]. eexists. split; [reflexivity|].
  apply lookup_insert_eq.
Qed.

(** In the development configuration the routes endpoint lists a route
    registered after construction. *)
Example routes_lists_widgets :
  ∃ srv0, New [OptionAppEnv "dev"] = Ok srv0 ∧
    let srv := GET "/widgets" (httprouter.FuncHandle (λ _, Returned (jres.OK BEmpty))) srv0 in
    ∃ routes,
      ServeHTTP srv "GET" "/_system/routes" sample_env =
        Returned (mkResponse 200 (BRoutes routes)) ∧
      RouteInfo.mk "GET" "/widgets" ∈ routes.
Proof.
  eexists. split; [reflexivity|]. cbv zeta.
  exists [RouteInfo.mk "GET" "/_system/routes"; RouteInfo.mk "GET" "/_system/readiness";
          RouteInfo.mk "GET" "/_system/liveness"; RouteInfo.mk "GET" "/_system/info";
          RouteInfo.mk "GET" "/widgets"].
  split; [vm_compute; reflexivity|].
  apply list_elem_of_In. simpl. tauto.
Qed.

(** In production configuration a panic of a handle is turned into the
    response of the panic handler; in the development configuration it
    reaches the caller. *)
Example panic_boundary :
  let boom := httprouter.FuncHandle (λ _, Panicked "boom") in
  (∃ srv0, New [OptionAppEnv "prod"] = Ok srv0 ∧
     ServeHTTP (GET "/boom" boom srv0) "GET" "/boom" sample_env =
       Returned (mkResponse 500 BEmpty)) ∧
  (∃ srv0, New [OptionAppEnv "dev"] = Ok srv0 ∧
     ServeHTTP (GET "/boom" boom srv0) "GET" "/boom" sample_env = Panicked "boom").
Proof. split; eexists; split; reflexivity. Qed.

(** ** Health aggregation: the flag and the join *)

Lemma step_isOk_false (i : nat) (s : hstate) : isOk s = false → isOk (step i s) = false.
Proof.
  intros H. unfold step. destruct (tasks s !! i) as [[m|m d|m d|m d]|]; simpl; try done.
  by destruct (negb _).
Qed.

Lemma run_isOk_false (sched : list nat) (s : hstate) :
  isOk s = false → isOk (run sched s) = false.
Proof.
  revert s. induction sched as [|i sched IH]; intros s H; [done|].
  simpl. by apply IH, step_isOk_false.
Qed.

Lemma forallb_false_elem {A : Type} (f : A → bool) (l : list A) :
  forallb f l = false → ∃ x, x ∈ l ∧ f x = false.
Proof.
  induction l as [|a l IH]; [done|]. simpl. destruct (f a) eqn:Ha; simpl.
  - intros (x & Hx & Hfx)%IH. exists x. split; [by right|done].
  - intros _. exists a. split; [by left|done].
Qed.

(** X1. At every point of every schedule [isOk] is false only if some check
    returned ok=false, and once it is false it stays false however the
    schedule goes on. *)
Theorem isOk_cleared_by_failure (ms : list HealthMetric.t) (sched : list nat) :
  isOk (run sched (spawn ms)) = false →
  (∃ m, m ∈ ms ∧ HealthMetricResult.OK (HealthMetric.GetValue m ()) = false) ∧
  (∀ more, isOk (run (sched ++ more) (spawn ms)) = false).
Proof.
  intros H. split; [|intros more; rewrite run_app; by apply run_isOk_false].
  assert (Hs : hinv ms (run sched (spawn ms))) by apply run_hinv, spawn_hinv.
  rewrite (hinv_isOk _ _ Hs) in H.
  apply forallb_false_elem in H as (t & Ht & Hbad).
  exists (task_metric t). split.
  - rewrite <- (hinv_metrics _ _ Hs). by apply list_elem_of_fmap_2.
  - pose proof (hinv_data _ _ Hs) as Hd. rewrite Forall_forall in Hd.
    specialize (Hd t Ht). destruct t as [m|m d|m d|m d]; simpl in *; try discriminate.
    + rewrite (Hd d eq_refl), normalise_OK in Hbad. exact Hbad.
    + rewrite (Hd d eq_refl), normalise_OK in Hbad. exact Hbad.
Qed.

Lemma isOk_cleared_by_failure_witness :
  isOk (run [1; 1] (spawn [check_cache; check_db])) = false ∧
  (∃ m, m ∈ [check_cache; check_db] ∧
        HealthMetricResult.OK (HealthMetric.GetValue m ()) = false) ∧
  isOk (run ([1; 1] ++ [0; 0; 0; 1]) (spawn [check_cache; check_db])) = false.
Proof.
  split; [reflexivity|].
  destruct (isOk_cleared_by_failure [check_cache; check_db] [1; 1] eq_refl) as [H1 H2].
  split; [exact H1|exact (H2 [0; 0; 0; 1])].
Defined.

(** ** Health aggregation: when the join is reached *)





(** ** Health aggregation: the keys of the mapping *)





(** X4. Two checks of one name race for the entry of that name: when the
    goroutine of the first runs to its end before that of the second the
    entry is the second check's result, the other way round it is the
    first's; the HTTP status is the same in both runs. *)
Theorem HealthHandler_duplicate_name (m1 m2 : HealthMetric.t) :
  HealthMetric.Name m1 = HealthMetric.Name m2 →
  (∃ status metrics,
     HealthHandler (Some [m1; m2]) [0; 0; 0; 1; 1; 1] =
       Returned (mkResponse (if HealthMetricResult.OK (HealthMetric.GetValue m1 ()) &&
                                HealthMetricResult.OK (HealthMetric.GetValue m2 ())
                             then 200 else 500)%Z
                   (BHealth (HealthResponse.mk status (Some metrics)))) ∧
     metrics !! HealthMetric.Name m1 = Some (normalise (HealthMetric.GetValue m2 ()))) ∧
  (∃ status metrics,
     HealthHandler (Some [m1; m2]) [1; 1; 1; 0; 0; 0] =
       Returned (mkResponse (if HealthMetricResult.OK (HealthMetric.GetValue m1 ()) &&
                                HealthMetricResult.OK (HealthMetric.GetValue m2 ())
                             then 200 else 500)%Z
                   (BHealth (HealthResponse.mk status (Some metrics)))) ∧
     metrics !! HealthMetric.Name m1 = Some (normalise (HealthMetric.GetValue m1 ()))).
Proof.
  intros Hname. unfold HealthHandler. simpl.
  rewrite !normalise_OK.
  destruct (HealthMetricResult.OK (HealthMetric.GetValue m1 ())),
    (HealthMetricResult.OK (HealthMetric.GetValue m2 ())); simpl;
    (split; eexists _, _; (split; [reflexivity|]));
    rewrite ?Hname; try apply lookup_insert_eq;
    rewrite <- ?Hname; apply lookup_insert_eq.
Qed.

Lemma HealthHandler_duplicate_name_witness :
  HealthMetric.Name check_db = HealthMetric.Name check_db_up ∧
  (∃ resp status metrics,
     HealthHandler (Some [check_db; check_db_up]) [0; 0; 0; 1; 1; 1] = Returned resp ∧
     Payload resp = BHealth (HealthResponse.mk status (Some metrics)) ∧
     HealthMetricResult.Status <$> metrics !! "db" = Some "ok") ∧
  (∃ resp status metrics,
     HealthHandler (Some [check_db; check_db_up]) [1; 1; 1; 0; 0; 0] = Returned resp ∧
     Payload resp = BHealth (HealthResponse.mk status (Some metrics)) ∧
     HealthMetricResult.Status <$> metrics !! "db" = Some "degraded").
Proof.
  split; [reflexivity|].
  destruct (HealthHandler_duplicate_name check_db check_db_up eq_refl)
    as [(st1 & mt1 & H1 & L1) (st2 & mt2 & H2 & L2)].
  split.
  - eexists _, st1, mt1. split; [exact H1|]. split; [reflexivity|].
    change "db" with (HealthMetric.Name check_db). by rewrite L1.
  - eexists _, st2, mt2. split; [exact H2|]. split; [reflexivity|].
    change "db" with (HealthMetric.Name check_db). by rewrite L2.
Defined.

(** ** The facade: checks and endpoints *)

Lemma HealthHandler_not_panicked (metrics : option (list HealthMetric.t)) (sched : list nat)
    (ctx : string) :
  HealthHandler metrics sched ≠ Panicked ctx.
Proof.
  unfold HealthHandler. destruct metrics; [|done]. cbv zeta.
  by destruct (forallb _ _).
Qed.

(** X6. Adding a readiness (liveness, info) check changes the answer to no
    request but those served by the handle on the readiness (liveness,
    info) checks. *)
Theorem AddCheck_other_endpoints (s : Server.t) (name : string) (method path : string)
    (env : Env) :
  (∀ handler,
     httprouter.Lookup (Server.Router s) method path ≠
       Some (httprouter.HealthHandle addrReadinessMetrics) →
     ServeHTTP (AddReadinessCheck name handler s) method path env =
       ServeHTTP s method path env) ∧
  (∀ handler,
     httprouter.Lookup (Server.Router s) method path ≠
       Some (httprouter.HealthHandle addrLivenessMetrics) →
     ServeHTTP (AddLivenessCheck name handler s) method path env =
       ServeHTTP s method path env) ∧
  (∀ handler,
     httprouter.Lookup (Server.Router s) method path ≠
       Some (httprouter.InfoHandle addrInfoMetrics) →
     ServeHTTP (AddInfoMetric name handler s) method path env =
       ServeHTTP s method path env).
Proof.
  repeat split; intros handler Hne; unfold ServeHTTP; simpl;
    destruct (httprouter.Lookup (Server.Router s) method path) as [[[]|[]|[]|f]|];
    try done.
Qed.

Lemma find_app' {A : Type} (f : A → bool) (l l' : list A) :
  find f (l ++ l') = match find f l with Some x => Some x | None => find f l' end.
Proof. induction l as [|a l IH]; simpl; [done|]. by destruct (f a). Qed.

(** Registering one more route keeps what was found and, for a method and
    path not registered before, finds the new handle. *)
Lemma Lookup_Handle_ (r : httprouter.Router) (method path m' p' : string)
    (handle : httprouter.Handle) :
  httprouter.Lookup (httprouter.Handle_ method path handle r) m' p' =
    match httprouter.Lookup r m' p' with
    | Some h => Some h
    | None => if String.eqb method m' && String.eqb path p' then Some handle else None
    end.
Proof.
  unfold httprouter.Lookup, httprouter.Handle_. simpl. rewrite find_app'.
  destruct (find _ (httprouter.table r)); [done|]. simpl.
  unfold httprouter.matches. simpl. by destruct (_ && _).
Qed.

Lemma Run_select_frame (evs : list RunEvent) (effs : list effect) (s : Server.t) :
  let s' := after (Run_select evs effs s) in
  Server.Router s' = Server.Router s ∧ Server.Negroni s' = Server.Negroni s ∧
  Server.contextPath s' = Server.contextPath s ∧ Server.routes s' = Server.routes s ∧
  Server.readinessMetrics s' = Server.readinessMetrics s ∧
  Server.livenessMetrics s' = Server.livenessMetrics s ∧
  Server.infoMetrics s' = Server.infoMetrics s.
Proof.
  revert effs s. induction evs as [|ev evs IH]; intros effs s; [done|].
  destruct ev as [[[|msg]|]|sig drain|drain]; simpl.
  - apply IH.
  - done.
  - apply IH.
  - case_bool_decide; [|apply IH]. simpl. unfold Shutdown.
    by destruct (Server.httpServer s).
  - destruct (IH (effs ++ effects (Shutdown drain s)) (after (Shutdown drain s)))
      as (-> & -> & -> & -> & -> & -> & ->).
    unfold Shutdown. by destruct (Server.httpServer s).
Qed.

Lemma Run_frame (addr : string) (evs : list RunEvent) (s : Server.t) :
  let s' := after (Run addr evs s) in
  Server.Router s' = Server.Router s ∧
  Server.contextPath s' = Server.contextPath s ∧ Server.routes s' = Server.routes s ∧
  Server.readinessMetrics s' = Server.readinessMetrics s ∧
  Server.livenessMetrics s' = Server.livenessMetrics s ∧
  Server.infoMetrics s' = Server.infoMetrics s.
Proof.
  unfold Run. destruct (Server.httpServer s); [done|].
  match goal with |- context [Run_select evs ?e ?s0] =>
    destruct (Run_select_frame evs e s0) as (-> & _ & -> & -> & -> & -> & ->) end.
  done.
Qed.

Lemma Shutdown_frame (drain : option string) (s : Server.t) :
  let s' := after (Shutdown drain s) in
  Server.Router s' = Server.Router s ∧ Server.Negroni s' = Server.Negroni s ∧
  Server.contextPath s' = Server.contextPath s ∧ Server.routes s' = Server.routes s ∧
  Server.readinessMetrics s' = Server.readinessMetrics s ∧
  Server.livenessMetrics s' = Server.livenessMetrics s ∧
  Server.infoMetrics s' = Server.infoMetrics s.
Proof. unfold Shutdown. by destruct (Server.httpServer s). Qed.

Lemma Lookup_skip_routes (cs : list string) (p : string)
    (rest : list (string * string * httprouter.Handle)) :
  (∀ c, c +:+ "/_system/routes" ≠ p) →
  find (httprouter.matches "GET" p) ((routes_entry <$> cs) ++ rest) =
    find (httprouter.matches "GET" p) rest.
Proof.
  intros Hp. induction cs as [|c cs IH]; [done|]. simpl.
  unfold httprouter.matches at 1. simpl.
  specialize (Hp c). apply String.eqb_neq in Hp. by rewrite Hp.
Qed.

(** The three endpoints [New] registers after the options are found under
    the context path of the server. *)
Lemma New_Lookup_builtins (opts : list Option.t) (srv : Server.t) :
  New opts = Ok srv →
  httprouter.Lookup (Server.Router srv) "GET" (contextPath_of opts +:+ "/_system/readiness") =
    Some (httprouter.HealthHandle addrReadinessMetrics) ∧
  httprouter.Lookup (Server.Router srv) "GET" (contextPath_of opts +:+ "/_system/liveness") =
    Some (httprouter.HealthHandle addrLivenessMetrics) ∧
  httprouter.Lookup (Server.Router srv) "GET" (contextPath_of opts +:+ "/_system/info") =
    Some (httprouter.InfoHandle addrInfoMetrics).
Proof.
  intros (cs & Ht & _ & _ & _ & Hc & _)%New_spec. rewrite <- Hc.
  set (c := Server.contextPath srv) in *. unfold httprouter.Lookup. rewrite Ht.
  assert (Hne : ∀ a b : string, a ≠ b → String.eqb (c +:+ a) (c +:+ b) = false).
  { intros a b Hab. apply String.eqb_neq. by intros ?%(inj (String.app c)). }
  repeat split.
  - rewrite Lookup_skip_routes.
    + simpl. unfold httprouter.matches. simpl. by rewrite String.eqb_refl.
    + intros c' H. by destruct (builtin_not_routes c c') as (? & _).
  - rewrite Lookup_skip_routes.
    + simpl. unfold httprouter.matches. simpl.
      rewrite (Hne "/_system/readiness" "/_system/liveness") by done.
      by rewrite String.eqb_refl.
    + intros c' H. by destruct (builtin_not_routes c c') as (_ & ? & _).
  - rewrite Lookup_skip_routes.
    + simpl. unfold httprouter.matches. simpl.
      rewrite (Hne "/_system/readiness" "/_system/info") by done.
      rewrite (Hne "/_system/liveness" "/_system/info") by done.
      by rewrite String.eqb_refl.
    + intros c' H. by destruct (builtin_not_routes c c') as (_ & _ & ?).
Qed.

Lemma entry_info_routes (cs : list string) :
  entry_info <$> (routes_entry <$> cs) = routes_info <$> cs.
Proof. induction cs as [|c cs IH]; [done|]. rewrite !fmap_cons, IH. done. Qed.

Lemma facade_keeps (opts : list Option.t) (s : Server.t) :
  facade opts s → facade_inv opts s.
Proof.
  induction 1 as [srv Hnew|method path handle s _ IH|name handler s _ IH
                 |name handler s _ IH|name handler s _ IH|addr evs s _ IH|drain s _ IH].
  - destruct (New_Lookup_builtins _ _ Hnew) as (Hr & Hl & Hi).
    destruct (New_spec _ _ Hnew) as (cs & Ht & Hrs & _ & _ & Hc & Hp & Hnf & Hm & Hh).
    split; try done.
    rewrite Ht, Hrs, fmap_app, entry_info_routes. done.
  - destruct IH. split; simpl; try done.
    + rewrite fmap_app, finv_routes0. done.
    + change (httprouter.Lookup (httprouter.Handle_ method (Server.contextPath s +:+ path)
                handle (Server.Router s)) "GET"
                (contextPath_of opts +:+ "/_system/readiness") = 
              Some (httprouter.HealthHandle addrReadinessMetrics)).
      by rewrite Lookup_Handle_, finv_readiness0.
    + change (httprouter.Lookup (httprouter.Handle_ method (Server.contextPath s +:+ path)
                handle (Server.Router s)) "GET"
                (contextPath_of opts +:+ "/_system/liveness") = 
              Some (httprouter.HealthHandle addrLivenessMetrics)).
      by rewrite Lookup_Handle_, finv_liveness0.
    + change (httprouter.Lookup (httprouter.Handle_ method (Server.contextPath s +:+ path)
                handle (Server.Router s)) "GET"
                (contextPath_of opts +:+ "/_system/info") = 
              Some (httprouter.InfoHandle addrInfoMetrics)).
      by rewrite Lookup_Handle_, finv_info0.
  - by destruct IH.
  - by destruct IH.
  - by destruct IH.
  - destruct IH. destruct (Run_frame addr evs s) as (Hr & Hc & Hrs & _).
    split; rewrite ?Hr, ?Hc, ?Hrs; done.
  - destruct IH. destruct (Shutdown_frame drain s) as (Hr & _ & Hc & Hrs & _).
    split; rewrite ?Hr, ?Hc, ?Hrs; done.
Qed.

Lemma behind_panic_handler (o : outcome) (ph : option Response) :
  (∀ ctx, o ≠ Panicked ctx) →
  match o with
  | Returned resp => Returned resp
  | Panicked ctx => match ph with Some resp => Returned resp | None => Panicked ctx end
  | Blocked => Blocked
  end = o.
Proof. intros H. destruct o; try done. by destruct (H ctx). Qed.

(** X5. On every server reached through the facade the readiness, the
    liveness and the info endpoint, under the context path of the options,
    run [HealthHandler] and [InfoHandler] on the checks the server holds
    when the request is served. *)
Theorem facade_endpoints (opts : list Option.t) (s : Server.t) (env : Env) :
  facade opts s →
  ServeHTTP s "GET" (contextPath_of opts +:+ "/_system/readiness") env =
    HealthHandler (Some (Server.readinessMetrics s)) (sched env) ∧
  ServeHTTP s "GET" (contextPath_of opts +:+ "/_system/liveness") env =
    HealthHandler (Some (Server.livenessMetrics s)) (sched env) ∧
  ServeHTTP s "GET" (contextPath_of opts +:+ "/_system/info") env =
    InfoHandler (Some (Server.infoMetrics s)) (runtime env).
Proof.
  intros [_ _ _ _ _ _ Hr Hl Hi]%facade_keeps. unfold ServeHTTP. rewrite Hr, Hl, Hi.
  unfold call, deref_health, deref_info. repeat split.
  - apply behind_panic_handler. intros ctx. apply HealthHandler_not_panicked.
  - apply behind_panic_handler. intros ctx. apply HealthHandler_not_panicked.
Qed.

Lemma facade_endpoints_witness :
  ∃ srv, New [OptionContextPath "/api/"] = Ok srv ∧
    let s := AddReadinessCheck "db" (HealthMetric.GetValue check_db) srv in
    ServeHTTP s "GET" "/api/_system/readiness" (mkEnv [0; 0; 0] sample_runtime) =
      HealthHandler (Some [HealthMetric.mk "db" (HealthMetric.GetValue check_db)]) [0; 0; 0] ∧
    ServeHTTP s "GET" "/api/_system/liveness" (mkEnv [0; 0; 0] sample_runtime) =
      HealthHandler (Some []) [0; 0; 0].
Proof.
  eexists. split; [reflexivity|]. cbv zeta.
  match goal with |- context [AddReadinessCheck ?n ?h ?srv] =>
    destruct (facade_endpoints [OptionContextPath "/api/"] (AddReadinessCheck n h srv)
                (mkEnv [0; 0; 0] sample_runtime)
                (facade_AddReadinessCheck [OptionContextPath "/api/"] n h srv
                   (facade_New [OptionContextPath "/api/"] srv eq_refl)))
      as (H1 & H2 & _)
  end.
  split; [exact H1|exact H2].
Defined.




(** X17. What the options set up is never changed through the facade: the
    context path, the panic handler (none after a dev or test option), the
    not-found and method-not-allowed handlers and the method-not-allowed
    switch are on every reachable server as [New] left them. *)
Theorem facade_configuration (opts : list Option.t) (s : Server.t) :
  facade opts s →
  Server.contextPath s = contextPath_of opts ∧
  httprouter.PanicHandler (Server.Router s) =
    (if existsb enables_routes opts then None else Some PanicHandler) ∧
  httprouter.NotFound (Server.Router s) = Some NotFoundHandler ∧
  httprouter.MethodNotAllowed (Server.Router s) = Some MethodNotAllowedHandler ∧
  httprouter.HandleMethodNotAllowed (Server.Router s) = true.
Proof. by intros []%facade_keeps. Qed.

Lemma facade_configuration_witness :
  ∃ srv, New [OptionContextPath "/api/"; OptionAppEnv "prod"] = Ok srv ∧
    let s := after (Shutdown None (after (Run ":9876" []
               (GET "/widgets" (httprouter.FuncHandle (λ _, Returned (jres.OK BEmpty)))
                  srv)))) in
    Server.contextPath s = "/api" ∧
    httprouter.PanicHandler (Server.Router s) = Some PanicHandler.
Proof.
  eexists. split; [reflexivity|]. cbv zeta.
  match goal with |- context [GET ?p ?h ?srv] =>
    destruct (facade_configuration [OptionContextPath "/api/"; OptionAppEnv "prod"] _
                (facade_Shutdown _ None _ (facade_Run _ ":9876" [] _
                   (facade_Handle _ "GET" p h srv
                      (facade_New [OptionContextPath "/api/"; OptionAppEnv "prod"] srv
                         eq_refl)))))
      as (H1 & H2 & _)
  end.
  split; [exact H1|exact H2].
Defined.



Lemma AddCheck_other_endpoints_witness :
  ∃ srv, New [] = Ok srv ∧
    httprouter.Lookup (Server.Router srv) "GET" "/_system/liveness" ≠
      Some (httprouter.HealthHandle addrReadinessMetrics) ∧
    ServeHTTP (AddReadinessCheck "db" (HealthMetric.GetValue check_db) srv)
        "GET" "/_system/liveness" sample_env =
      ServeHTTP srv "GET" "/_system/liveness" sample_env.
Proof.
  eexists. split; [reflexivity|].
  match goal with |- ?P ∧ _ => assert (H : P) by discriminate end.
  split; [exact H|].
  exact (proj1 (AddCheck_other_endpoints _ "db" "GET" "/_system/liveness" sample_env)
           (HealthMetric.GetValue check_db) H).
Defined.



(** ** Construction: panics and the context path *)





Lemma substring_split (s : string) (k : nat) :
  k ≤ String.length s →
  s = String.substring 0 k s +:+ String.substring k (String.length s - k) s.
Proof.
  revert k. induction s as [|c s IH]; intros [|k] Hk; simpl in *; try lia.
  - done.
  - by rewrite substring_all.
  - rewrite string_app_cons. f_equal. apply IH. lia.
Qed.

(** What [TrimSuffix] returns: the string without the suffix when it ends in
    it, the string itself when it does not. *)
Lemma TrimSuffix_spec (s x : string) :
  s = strings.TrimSuffix s x +:+ x ∨ (strings.TrimSuffix s x = s ∧ ∀ q, s ≠ q +:+ x).
Proof.
  unfold strings.TrimSuffix. destruct (strings.HasSuffix s x) eqn:H.
  - left. unfold strings.HasSuffix in H.
    apply andb_prop in H as [Hle%Nat.leb_le Heq%String.eqb_eq].
    pose proof (substring_split s (String.length s - String.length x)) as Hs.
    replace (String.length s - (String.length s - String.length x))
      with (String.length x) in Hs by lia.
    rewrite Heq in Hs. apply Hs. lia.
  - right. split; [done|]. intros q ->. by rewrite HasSuffix_app in H.
Qed.

Lemma foldl_contextPath_appEnv (post : list Option.t) (c : string) :
  Forall (λ o, Option.name o = optionAppEnv) post →
  foldl option_contextPath c post = c.
Proof.
  induction 1 as [|o post Ho _ IH]; [done|]. simpl.
  unfold option_contextPath at 2. by rewrite Ho.
Qed.

(** X10. The context path of the server is that of the last context path
    option: its value without the final slash when it ends in one, its
    value as it is otherwise. *)
Theorem New_contextPath_last (pre post : list Option.t) (p : string) (srv : Server.t) :
  New (pre ++ OptionContextPath p :: post) = Ok srv →
  Forall (λ o, Option.name o = optionAppEnv) post →
  p = Server.contextPath srv +:+ "/" ∨
  (Server.contextPath srv = p ∧ ∀ q, p ≠ q +:+ "/").
Proof.
  intros (cs & _ & _ & _ & _ & Hc & _)%New_spec Hpost.
  unfold contextPath_of in Hc. rewrite foldl_app in Hc. simpl in Hc.
  rewrite foldl_contextPath_appEnv in Hc by done.
  unfold option_contextPath in Hc. simpl in Hc. rewrite Hc. apply TrimSuffix_spec.
Qed.

Lemma New_contextPath_last_witness :
  (∃ srv, New [OptionContextPath "/v1"; OptionContextPath "/api/"; OptionAppEnv "dev"] = Ok srv ∧
          "/api/" = Server.contextPath srv +:+ "/") ∧
  (∃ srv, New [OptionContextPath "/api"] = Ok srv ∧ Server.contextPath srv = "/api").
Proof.
  split.
  - eexists. split; [reflexivity|].
    destruct (New_contextPath_last [OptionContextPath "/v1"] [OptionAppEnv "dev"] "/api/" _
                eq_refl) as [H|[H _]].
    + apply Forall_cons_2; [reflexivity|apply Forall_nil_2].
    + exact H.
    + reflexivity.
  - eexists. split; [reflexivity|].
    destruct (New_contextPath_last [] [] "/api" _ eq_refl (Forall_nil_2 _)) as [H|[H _]].
    + reflexivity.
    + exact H.
Defined.

(** ** Lifecycle: the blocked [Run] *)

Lemma Run_select_quiet (pre evs : list RunEvent) (effs : list effect) (s : Server.t) :
  forallb quiet pre = true →
  Run_select (pre ++ evs) effs s = Run_select evs effs s.
Proof.
  induction pre as [|ev pre IH]; [done|]. simpl.
  intros [Hq Hpre]%andb_prop. destruct ev as [[[|msg]|]|sig drain|drain]; simpl in *;
    try discriminate; try by apply IH.
  apply negb_true_iff in Hq. rewrite Hq. by apply IH.
Qed.

Lemma Run_enters (addr : string) (evs : list RunEvent) (s : Server.t) :
  IsRunning s = false →
  Run addr evs s =
    Run_select evs [GoStartServer addr; SignalNotify stopSignals]
      (set_httpServer (Some (mkHttpServer addr))
         (set_Negroni (negroni.UseHandler (Server.Negroni s)) s)).
Proof. unfold IsRunning, Run. by destruct (Server.httpServer s). Qed.

(** X11. A [Run] that passed the guard returns at the first stop signal,
    whatever signals outside [stopSignals] and returns of [ListenAndServe]
    without failure came before: it hands back what the drain returned,
    leaves the server stopped, and has drained once with the 30 second
    timeout. *)
Theorem Run_stop_signal (s : Server.t) (addr : string) (pre evs : list RunEvent)
    (sig : Signal) (drain : option string) :
  IsRunning s = false → forallb quiet pre = true → sig ∈ stopSignals →
  let r := Run addr (pre ++ Signalled sig drain :: evs) s in
  ret r = Some (errorString <$> drain) ∧
  IsRunning (after r) = false ∧
  effects r = [GoStartServer addr; SignalNotify stopSignals;
               LogPrintln "Shutting down HTTP server...";
               HttpShutdown addr gracefulTermTimeout].
Proof.
  intros Hs Hpre Hsig r. subst r. rewrite Run_enters, Run_select_quiet by done.
  simpl. rewrite bool_decide_eq_true_2 by done. done.
Qed.

Lemma Run_stop_signal_witness :
  ∃ srv, New [] = Ok srv ∧
    let r := Run ":9876" [Served None; Signalled SIGUSR1 None;
                          Signalled SIGTERM (Some "context deadline exceeded")] srv in
    ret r = Some (Some (errorString "context deadline exceeded")) ∧
    IsRunning (after r) = false.
Proof.
  eexists. split; [reflexivity|].
  match goal with |- context [Run _ _ ?srv] =>
    destruct (Run_stop_signal srv ":9876" [Served None; Signalled SIGUSR1 None] []
                SIGTERM (Some "context deadline exceeded") eq_refl eq_refl)
      as (H1 & H2 & _)
  end.
  - apply list_elem_of_In. simpl. tauto.
  - split; [exact H1|exact H2].
Defined.

(** X12. When [ListenAndServe] fails, [Run] returns the failure behind the
    prefix "common/server: failed to start server: ", the server is stopped
    and nothing was drained. *)
Theorem Run_listen_failure (s : Server.t) (addr msg : string) (pre evs : list RunEvent) :
  IsRunning s = false → forallb quiet pre = true →
  let r := Run addr (pre ++ Served (Some (listenFailed msg)) :: evs) s in
  ret r = Some (Some (errorString ("common/server: failed to start server: " +:+ msg))) ∧
  IsRunning (after r) = false ∧
  effects r = [GoStartServer addr; SignalNotify stopSignals].
Proof.
  intros Hs Hpre r. subst r. by rewrite Run_enters, Run_select_quiet.
Qed.

Lemma Run_listen_failure_witness :
  ∃ srv, New [] = Ok srv ∧
    let r := Run ":9876" [Served (Some (listenFailed "listen tcp :9876: bind: address already in use"))] srv in
    ret r = Some (Some (errorString
      "common/server: failed to start server: listen tcp :9876: bind: address already in use")) ∧
    IsRunning (after r) = false.
Proof.
  eexists. split; [reflexivity|].
  match goal with |- context [Run _ _ ?srv] =>
    destruct (Run_listen_failure srv ":9876"
                "listen tcp :9876: bind: address already in use" [] [] eq_refl eq_refl)
      as (H1 & H2 & _)
  end.
  split; [exact H1|exact H2].
Defined.

Lemma Run_select_returns_stopped (evs : list RunEvent) (effs : list effect) (s : Server.t)
    (e : option error) :
  ret (Run_select evs effs s) = Some e → IsRunning (after (Run_select evs effs s)) = false.
Proof.
  revert effs s. induction evs as [|ev evs IH]; intros effs s; [done|].
  destruct ev as [[[|msg]|]|sig drain|drain]; simpl; try apply IH; [done|].
  case_bool_decide; [|apply IH]. simpl. intros _. unfold IsRunning.
  by rewrite Shutdown_after.
Qed.

(** X13. Whenever a [Run] on a stopped server returns, whatever happened
    while it waited, the server is stopped. *)
Theorem Run_returns_stopped (s : Server.t) (addr : string) (evs : list RunEvent)
    (e : option error) :
  IsRunning s = false →
  ret (Run addr evs s) = Some e →
  IsRunning (after (Run addr evs s)) = false.
Proof.
  intros Hs. rewrite Run_enters by done. apply Run_select_returns_stopped.
Qed.

Lemma Run_returns_stopped_witness :
  ∃ srv, New [] = Ok srv ∧
    let evs := [ShutdownCalled None; Served (Some ErrServerClosed); Signalled SIGINT None] in
    ret (Run ":9876" evs srv) = Some (Some ErrServerStopped) ∧
    IsRunning (after (Run ":9876" evs srv)) = false.
Proof.
  eexists. split; [reflexivity|]. intros evs. split; [reflexivity|].
  match goal with |- context [Run _ _ ?srv] =>
    exact (Run_returns_stopped srv ":9876" evs (Some ErrServerStopped) eq_refl eq_refl)
  end.
Defined.

(** X14. While nothing but signals outside [stopSignals] and returns of
    [ListenAndServe] without failure happen, [Run] does not return and the
    server keeps the listener for the address it was given. *)
Theorem Run_blocks (s : Server.t) (addr : string) (evs : list RunEvent) :
  IsRunning s = false → forallb quiet evs = true →
  ret (Run addr evs s) = None ∧
  Server.httpServer (after (Run addr evs s)) = Some (mkHttpServer addr).
Proof.
  intros Hs Hq. rewrite Run_enters by done.
  rewrite <- (app_nil_r evs), Run_select_quiet by done. done.
Qed.

Lemma Run_blocks_witness :
  ∃ srv, New [] = Ok srv ∧
    let evs := [Signalled SIGUSR2 None; Served None] in
    ret (Run ":9876" evs srv) = None ∧
    Server.httpServer (after (Run ":9876" evs srv)) = Some (mkHttpServer ":9876").
Proof.
  eexists. split; [reflexivity|]. intros evs.
  match goal with |- context [Run _ _ ?srv] =>
    exact (Run_blocks srv ":9876" evs eq_refl eq_refl)
  end.
Defined.

(** X15. Every [Run] that passes the guard appends the router to the
    middleware stack: after a stop and a second [Run] the stack holds it
    twice. *)
Theorem Run_middleware (s : Server.t) (addr addr' : string) (evs evs' : list RunEvent) :
  IsRunning s = false →
  let s1 := after (Run addr evs s) in
  Server.Negroni s1 = Server.Negroni s ++ [negroni.Wrap] ∧
  (IsRunning s1 = false →
   Server.Negroni (after (Run addr' evs' s1)) =
     Server.Negroni s ++ [negroni.Wrap; negroni.Wrap]).
Proof.
  assert (H : ∀ s a e, IsRunning s = false →
            Server.Negroni (after (Run a e s)) = Server.Negroni s ++ [negroni.Wrap]).
  { intros s0 a e H0. rewrite Run_enters by done.
    match goal with |- context [Run_select e ?ef ?s1] =>
      destruct (Run_select_frame e ef s1) as (_ & -> & _) end. done. }
  intros Hs s1. split; [by apply H|]. intros Hs1.
  rewrite H by done. subst s1. rewrite H by done. by rewrite <- app_assoc.
Qed.

Lemma Run_middleware_witness :
  ∃ srv, New [] = Ok srv ∧
    let s1 := after (Run ":9876" [Signalled SIGTERM None] srv) in
    Server.Negroni (after (Run ":9876" [] s1)) =
      [negroni.Recovery; negroni.Logger; negroni.Static "public"; negroni.Wrap; negroni.Wrap].
Proof.
  eexists. split; [reflexivity|]. intros s1.
  match goal with s1 := after (Run _ _ ?srv) |- _ =>
    exact (proj2 (Run_middleware srv ":9876" ":9876" [Signalled SIGTERM None] [] eq_refl)
             eq_refl)
  end.
Defined.



(** ** The facade: requests without a handle, and the fresh server *)



(** X20. A server as [New] returns it is stopped, so [Shutdown] on it
    returns [ErrServerStopped], and it has no checks: its readiness and
    liveness endpoints answer "ok" with an empty mapping and status 200
    under every schedule, and its info endpoint answers with an empty
    mapping. *)
Theorem New_server_fresh (opts : list Option.t) (srv : Server.t) (env : Env)
    (drain : option string) :
  New opts = Ok srv →
  IsRunning srv = false ∧
  ret (Shutdown drain srv) = Some ErrServerStopped ∧
  ServeHTTP srv "GET" (Server.contextPath srv +:+ "/_system/readiness") env =
    Returned (mkResponse 200 (BHealth (HealthResponse.mk "ok" (Some ∅)))) ∧
  ServeHTTP srv "GET" (Server.contextPath srv +:+ "/_system/liveness") env =
    Returned (mkResponse 200 (BHealth (HealthResponse.mk "ok" (Some ∅)))) ∧
  ∃ resp, ServeHTTP srv "GET" (Server.contextPath srv +:+ "/_system/info") env =
            Returned (mkResponse 200 (BInfo resp)) ∧
          InfoResponse.Metrics resp = ∅.
Proof.
  intros Hnew. destruct (New_fresh _ _ Hnew) as (Hr & Hl & Hi & Hrun).
  destruct (New_Lookup_builtins _ _ Hnew) as (Lr & Ll & Li).
  destruct (New_spec _ _ Hnew) as (cs & _ & _ & _ & _ & Hc & _). rewrite <- Hc in Lr, Ll, Li.
  split; [done|]. split.
  { unfold IsRunning in Hrun. unfold Shutdown. by destruct (Server.httpServer srv). }
  unfold ServeHTTP. rewrite Lr, Ll, Li. unfold call, deref_health, deref_info.
  rewrite Hr, Hl, Hi, !HealthHandler_empty_slice. repeat split.
  eexists. split; reflexivity.
Qed.

Lemma New_server_fresh_witness :
  ∃ srv, New [OptionContextPath "/api/"] = Ok srv ∧
    IsRunning srv = false ∧
    ServeHTTP srv "GET" "/api/_system/readiness" sample_env =
      Returned (mkResponse 200 (BHealth (HealthResponse.mk "ok" (Some ∅)))).
Proof.
  eexists. split; [reflexivity|].
  match goal with |- context [ServeHTTP ?srv _ _ _] =>
    destruct (New_server_fresh [OptionContextPath "/api/"] srv sample_env None eq_refl)
      as (H1 & _ & H2 & _)
  end.
  split; [exact H1|exact H2].
Defined.
